(** * qualtrics_data_compiler.py: the column remapping core

    A shallow embedding of [src/qualtrics_data_compiler.py]: the value
    remappers [remap_to_int], [remap_yes_no] and [remap_list], the
    twelve per-column remap rules of the main block, the rename /
    reorder / remap pipeline over a data frame, and the final export
    (lines 189-300; the command line, the raw download and the parsing
    of the file by pandas are outside the model).

    Python values are dynamically typed, so a cell is a [pyval]; Python
    integers are unbounded, so they are [Z]; exceptions are an error
    type threaded through a small state-and-error monad whose state is
    the world a Python callable can touch (the files on disk and the
    standard output). *)

From Stdlib Require Import ZArith String Ascii List Lia SpecFloat.
From stdpp Require Import base option list gmap strings fin_maps.

Local Open Scope string_scope.
Local Open Scope Z_scope.

(** ** Values and exceptions *)

(** A cell of the frame, or the argument of a remapper.  The annotation
    of the source is [Union[str, float]]; a column that pandas parsed as
    integers yields [int] cells, which is why [VInt] is here too.
    Floats are IEEE-754 doubles ([spec_float] of the Standard Library). *)
Inductive pyval : Type :=
  | VStr (s : string)
  | VFloat (f : spec_float)
  | VInt (z : Z).

(** The exceptions the modelled code can raise. *)
Inductive exn : Type :=
  | KeyError (key : pyval)      (* [mapper[value]], a missing column label *)
  | ValueError                  (* [1 << n] with [n < 0]: negative shift count *)
  | AttributeError              (* [values.split] on a value that is no [str] *)
  | TypeError                   (* [HTTPError(msg)]: the constructor needs five arguments *)
  | RequestException (name : string).  (* raised by [requests.get] itself *)

Inductive result (A : Type) : Type :=
  | Ok (a : A)
  | Raise (e : exn).
Arguments Ok {A} a.
Arguments Raise {A} e.

(** [math.isnan] on a float. *)
Definition isnan (f : spec_float) : bool :=
  match f with
  | S754_nan => true
  | _ => false
  end.

(** The test of line 44: [type(value) == float and isnan(value)]. *)
Definition is_float_nan (value : pyval) : bool :=
  match value with
  | VFloat f => isnan f
  | _ => false
  end.

(** ** Data frames and the world *)

(** A pandas frame: the name of the index, the index values (one per
    row) and the columns in order, each a label with its cells.  The
    model is meant for frames whose column labels are pairwise
    distinct, which is what [pd.read_csv] produces. *)
Record DataFrame : Type := mkFrame {
  index_name : option string;
  index : list pyval;
  columns : list (string * list pyval)
}.

(** What a file holds: bytes fetched from a remote, or a frame written
    by [to_csv]. *)
Inductive content : Type :=
  | Bytes (b : string)
  | Csv (df : DataFrame).

(** The state a Python callable can observe and change. *)
Record World : Type := mkWorld {
  files : gmap string content;
  stdout : list string
}.

(** ** The monad of the embedding: state and exceptions *)

Definition M (A : Type) : Type := World -> result A * World.

Definition ret {A} (a : A) : M A := fun w => (Ok a, w).

Definition raise {A} (e : exn) : M A := fun w => (Raise e, w).

Definition bind {A B} (k : A -> M B) (c : M A) : M B :=
  fun w =>
    match c w with
    | (Ok a, w') => k a w'
    | (Raise e, w') => (Raise e, w')
    end.

#[export] Instance M_ret : MRet M := @ret.
#[export] Instance M_bind : MBind M := @bind.

(** [for x in xs: acc = body(acc, x)], stopping at the first exception. *)
Fixpoint for_each {A B} (body : A -> B -> M A) (xs : list B) (acc : A) : M A :=
  match xs with
  | [] => ret acc
  | x :: xs' => acc' ← body acc x; for_each body xs' acc'
  end.

(** [[f(x) for x in xs]], left to right, stopping at the first exception. *)
Fixpoint map_each {A B} (f : A -> M B) (xs : list A) : M (list B) :=
  match xs with
  | [] => ret []
  | x :: xs' => y ← f x; ys ← map_each f xs'; ret (y :: ys)
  end.

(** ** Mappers *)

(** A dict literal [{k1: v1, ..., kn: vn}]: the items are inserted from
    left to right, so a later item overrides an earlier one with the
    same key. *)
Definition dict_literal {V} (items : list (string * V)) : gmap string V :=
  fold_left (fun m kv => <[kv.1 := kv.2]> m) items ∅.

(** [StringToInt = Union[Mapping[str, int], Callable[[str], int]]]. *)
Inductive StringToInt : Type :=
  | Mapping (m : gmap string Z)
  | Callable (f : pyval -> M Z).

(** [mapper[value]] on a [Mapping[str, int]]: only a [str] can be a
    key; anything else raises [KeyError] like an absent string. *)
Definition getitem (m : gmap string Z) (value : pyval) : M Z :=
  match value with
  | VStr k =>
      match m !! k with
      | Some n => ret n
      | None => raise (KeyError value)
      end
  | _ => raise (KeyError value)
  end.

(** Lines 20-49. *)
Definition remap_to_int (value : pyval) (mapper : StringToInt) (nan : Z) : M Z :=
  if is_float_nan value then ret nan
  else match mapper with
       | Callable f => f value
       | Mapping m => getitem m value
       end.

(** The default of the parameter [nan] of [remap_to_int]. *)
Definition default_nan : Z := -1.

Definition yes_no_items : list (string * Z) := [("Yes", 1); ("No", 0)].

(** Lines 51-75. *)
Definition remap_yes_no (value : pyval) : M Z :=
  remap_to_int value (Mapping (dict_literal yes_no_items)) default_nan.

(** ** Bit fields *)

(** [values.split(',')].  Strings are byte strings here; the comma is
    ASCII and no byte of a multi-byte UTF-8 character equals it, so
    splitting bytes and splitting code points agree. *)
Fixpoint split_comma (s : string) : list string :=
  match s with
  | EmptyString => [EmptyString]
  | String c rest =>
      if Ascii.eqb c ","%char then EmptyString :: split_comma rest
      else match split_comma rest with
           | [] => [String c EmptyString]
           | tok :: toks => String c tok :: toks
           end
  end.

(** [1 << n] on Python integers: a negative count raises
    [ValueError], any other gives [2 ^ n] (integers are unbounded). *)
Definition shl_one (n : Z) : M Z :=
  if n <? 0 then raise ValueError else ret (Z.shiftl 1 n).

(** The local [mapper] of line 103. *)
Definition index_of (index_mapper : StringToInt) (value : string) : M Z :=
  match index_mapper with
  | Callable f => f (VStr value)
  | Mapping m => getitem m (VStr value)
  end.

(** One turn of the loop of lines 105-106. *)
Definition remap_list_step (index_mapper : StringToInt) (acc : Z) (value : string) : M Z :=
  i ← index_of index_mapper value;
  bit ← shl_one i;
  ret (Z.lor acc bit).

(** Lines 77-107. *)
Definition remap_list (values : string) (index_mapper : StringToInt) : M Z :=
  for_each (remap_list_step index_mapper) (split_comma values) 0.

(** ** The per-column rules of the main block

    The source passes an anonymous function to [Series.map] for each
    column; each one gets a name here, and its dict literal is kept
    apart as the list of its items in the order of the source. *)

(** Lines 225-229. *)
Definition paper_type_items : list (string * Z) :=
  [("Research Article", 1); ("Short paper", 2); ("Poster", 3)].

(** Lines 234-239. *)
Definition open_methodology_items : list (string * Z) :=
  [("Public Access", 3); ("Open Access", 2); ("Available", 1); ("No", 0)].

(** Lines 243-247. *)
Definition open_data_items : list (string * Z) :=
  [("Yes", 2); ("Data Available on Request", 1); ("No", 0)].

(** Lines 251-255. *)
Definition data_documentation_items : list (string * Z) :=
  [("Yes", 2); ("Partial", 1); ("No", 0)].

(** Lines 259-264. *)
Definition open_materials_items : list (string * Z) :=
  [("Full", 3); ("Partial", 2); ("On Request", 1); ("No", 0)].

(** Lines 268-272. *)
Definition materials_documentation_items : list (string * Z) :=
  [("Full", 2); ("Partial", 1); ("No", 0)].

(** Lines 282-287. *)
Definition reference_degradation_items : list (string * Z) :=
  [("Open Methodology", 0); ("Open Data", 1); ("Open Materials", 2);
   ("Preregistration", 3)].

(** [lambda value: remap_to_int(value = value, mapper = {...})]: the
    shape of the six lookup rules, with the default [nan]. *)
Definition remap_lookup (items : list (string * Z)) (value : pyval) : M Z :=
  remap_to_int value (Mapping (dict_literal items)) default_nan.

(** The inner function of lines 280-288.  [remap_list] starts with
    [values.split(',')], which only a [str] has. *)
Definition reference_degradation_mapper (v : pyval) : M Z :=
  match v with
  | VStr values => remap_list values (Mapping (dict_literal reference_degradation_items))
  | _ => raise AttributeError
  end.

(** Lines 278-290. *)
Definition remap_reference_degradation (values : pyval) : M Z :=
  remap_to_int values (Callable reference_degradation_mapper) 0.

(** The twelve assignments of lines 223-290, in their order: the column
    and the function mapped over it. *)
Definition column_remaps : list (string * (pyval -> M Z)) :=
  [("paper_type", remap_lookup paper_type_items);
   ("acm_misclassified", remap_yes_no);
   ("open_methodology", remap_lookup open_methodology_items);
   ("open_data", remap_lookup open_data_items);
   ("data_documentation", remap_lookup data_documentation_items);
   ("open_materials", remap_lookup open_materials_items);
   ("materials_documentation", remap_lookup materials_documentation_items);
   ("readme", remap_yes_no);
   ("permissible_software_license", remap_yes_no);
   ("preregistration", remap_yes_no);
   ("reproducible", remap_yes_no);
   ("reference_degradation", remap_reference_degradation)].

(** ** Frame operations *)

(** The argument of [data.rename(columns = ...)], lines 189-203. *)
Definition renamed_columns : list (string * string) :=
  [("Open Data", "open_data");
   ("Open Materials", "open_materials");
   ("Conference Proceedings", "conference_proceedings");
   ("Type", "paper_type");
   ("Misclassified", "acm_misclassified");
   ("Open Methodology", "open_methodology");
   ("Data Documentation", "data_documentation");
   ("Materials Documentation", "materials_documentation");
   ("README", "readme");
   ("License", "permissible_software_license");
   ("Preregistration", "preregistration");
   ("Reproducible", "reproducible");
   ("Reference Degradation", "reference_degradation")].

(** The list of lines 205-220. *)
Definition selected_columns : list string :=
  ["conference_proceedings"; "paper_type"; "acm_misclassified";
   "open_methodology"; "open_data"; "data_documentation"; "open_materials";
   "materials_documentation"; "readme"; "permissible_software_license";
   "preregistration"; "reproducible"; "reference_degradation"].

(** [DataFrame.rename(columns = mapping)]: a label that is a key of the
    mapping is replaced, any other label stays. *)
Definition rename (mapping : gmap string string) (df : DataFrame) : DataFrame :=
  mkFrame (index_name df) (index df)
          ((fun col => (default col.1 (mapping !! col.1), col.2)) <$> columns df).

(** [data.index.name = name]. *)
Definition set_index_name (name : string) (df : DataFrame) : DataFrame :=
  mkFrame (Some name) (index df) (columns df).

(** What a labelled list holds under a label: the cells of a column of
    a frame, the function of a column in [column_remaps]. *)
Fixpoint labelled {V} (label : string) (l : list (string * V)) : option V :=
  match l with
  | [] => None
  | (l0, v) :: rest =>
      if String.eqb l0 label then Some v else labelled label rest
  end.

(** [data[label]], for a label that one column carries at most:
    pandas gives a frame, not a column, for a label that several
    columns carry.  The statements that depend on it assume
    [well_labelled]. *)
Definition get_column (label : string) (df : DataFrame) : M (list pyval) :=
  match labelled label (columns df) with
  | Some cells => ret cells
  | None => raise (KeyError (VStr label))
  end.

(** [data[[label1, ..., labeln]]]: the listed columns in the listed
    order, for a frame in which each label is carried by one column at
    most (pandas keeps every column that carries a listed label).  A
    label the frame does not have raises [KeyError]; pandas puts every
    absent label in its message, the model carries the first one, and
    no statement depends on which. *)
Definition select (labels : list string) (df : DataFrame) : M DataFrame :=
  cols ← map_each (fun l => cells ← get_column l df; ret (l, cells)) labels;
  ret (mkFrame (index_name df) (index df) cols).

(** [data[label] = cells]: an existing column is replaced where it
    stands, a new label is appended. *)
Fixpoint set_cells (label : string) (cells : list pyval)
  (cols : list (string * list pyval)) : list (string * list pyval) :=
  match cols with
  | [] => [(label, cells)]
  | (l, old) :: rest =>
      if String.eqb l label then (l, cells) :: rest
      else (l, old) :: set_cells label cells rest
  end.

Definition set_column (label : string) (cells : list pyval) (df : DataFrame) : DataFrame :=
  mkFrame (index_name df) (index df) (set_cells label cells (columns df)).

(** [Series.map(f)]: [f] is called on every cell, missing ones
    included, from the first row to the last. *)
Definition series_map (f : pyval -> M Z) (cells : list pyval) : M (list pyval) :=
  map_each (fun v => n ← f v; ret (VInt n)) cells.

(** [data[label] = data[label].map(f)]. *)
Definition remap_column (df : DataFrame) (rule : string * (pyval -> M Z)) : M DataFrame :=
  cells ← get_column rule.1 df;
  cells' ← series_map rule.2 cells;
  ret (set_column rule.1 cells' df).

(** Lines 189-290: rename, name the index, reorder, remap. *)
Definition compile_frame (data : DataFrame) : M DataFrame :=
  let data := rename (dict_literal renamed_columns) data in
  let data := set_index_name "doi" data in
  data ← select selected_columns data;
  for_each remap_column column_remaps data.

(** ** Files *)

Definition OSF_PROJECT : string := "https://doi.org/10.17605/osf.io/74bzs".
Definition OUTPUT_PATH : string := "./data".
Definition COMPILED_DATA_PATH : string := OUTPUT_PATH +:+ "/compiled-survey-data.csv".

(** [print(line)]. *)
Definition print (line : string) : M unit :=
  fun w => (Ok tt, mkWorld (files w) (stdout w ++ [line])).

(** [os.path.exists(path)]. *)
Definition path_exists (path : string) : M bool :=
  fun w => (Ok (bool_decide (is_Some (files w !! path))), w).

(** [open(path, 'wb').write(...)]: the file is created or replaced. *)
Definition write_file (path : string) (c : content) : M unit :=
  fun w => (Ok tt, mkWorld (<[path := c]> (files w)) (stdout w)).

(** [DataFrame.to_csv(path)]. *)
Definition to_csv (df : DataFrame) (path : string) : M unit :=
  write_file path (Csv df).

(** The first line [to_csv] writes: the name of the index, then the
    column labels. *)
Definition csv_header (df : DataFrame) : list string :=
  default EmptyString (index_name df) :: (fst <$> columns df).

Section Output.

(** [requests.get(remote)]: the body of a response that is ok, [None]
    for a response that is not, or the exception the call raises (no
    connection, a time-out). *)
Variable requests_get : string -> result (option string).

(** Lines 109-144.  When the response is not ok, line 140 builds
    [HTTPError(message)]; the constructor of [urllib.error.HTTPError]
    takes [url, code, msg, hdrs, fp], so the call raises [TypeError]
    and no [HTTPError] is ever raised. *)
Definition download_data (path remote : string) (name loc : option string) : M unit :=
  let loc := default remote loc in
  let name := default path name in
  present ← path_exists path;
  if present : bool then ret tt
  else
    print ("Downloading " +:+ name +:+ " from '" +:+ loc +:+ "'.");;
    match requests_get remote with
    | Raise e => raise e
    | Ok None => raise TypeError
    | Ok (Some body) => write_file path (Bytes body)
    end.

(** Lines 292-296. *)
Definition download_docs : M unit :=
  download_data (OUTPUT_PATH +:+ "/CONTENT-LICENSE") "https://osf.io/download/4xhm9/"
                (Some "CONTENT-LICENSE") (Some OSF_PROJECT);;
  download_data (OUTPUT_PATH +:+ "/dataset-description.pdf") "https://osf.io/download/bgwp3/"
                (Some "dataset-description.pdf") (Some OSF_PROJECT);;
  download_data (OUTPUT_PATH +:+ "/explanations.pdf") "https://osf.io/download/xav7z/"
                (Some "explanations.pdf") (Some OSF_PROJECT).

(** Lines 189-300, from the loaded frame to the written file. *)
Definition compile_and_export (docs : bool) (data : DataFrame) : M unit :=
  data ← compile_frame data;
  (if docs then download_docs else ret tt);;
  to_csv data COMPILED_DATA_PATH.

End Output.

(** ** The main block *)

Definition RAW_DATA_NAME : string := "qualtrics-survey-data.csv".

(** [str.lower()] on the ASCII letters.  The values compared with its
    result are ASCII words, and no character outside ASCII lowers to a
    letter of one of them, so the other bytes are left as they are. *)
Definition lower_ascii (c : ascii) : ascii :=
  let n := nat_of_ascii c in
  if ((65 <=? n) && (n <=? 90))%nat then ascii_of_nat (n + 32) else c.

Fixpoint lower (s : string) : string :=
  match s with
  | EmptyString => EmptyString
  | String c rest => String (lower_ascii c) (lower rest)
  end.

(** The list of lines 151-152. *)
Definition truthy : list string := ["true"; "1"; "t"; "y"; "yes"].

(** Line 151, on the value of [os.getenv('74BZS_RAW_DATASET')]. *)
Definition env_raw_dataset (value : option string) : bool :=
  match value with
  | Some s => bool_decide (lower s ∈ truthy)
  | None => false
  end.

(** Line 152, on the value of [os.getenv('74BZS_DOCS')]. *)
Definition env_docs (value : option string) : bool :=
  match value with
  | Some s => bool_decide (lower s ∈ truthy)
  | None => true
  end.

Definition usage : string :=
  "qualtrics_data_compiler.py [-h | --help] [-r | --raw-dataset] [-n | --no-docs]".

(** The loop of lines 158-165 over the options [getopt] found, each by
    its name ([getopt] gives a long option its full name).  [inl code]
    is [sys.exit(code)], [inr] the two flags after the last option. *)
Fixpoint scan_opts (opts : list string) (raw_dataset docs : bool)
  : M (Z + bool * bool) :=
  match opts with
  | [] => ret (inr (raw_dataset, docs))
  | opt :: rest =>
      if bool_decide (opt ∈ ["-h"; "--help"]) then print usage;; ret (inl 0)
      else if bool_decide (opt ∈ ["-r"; "--raw-dataset"]) then scan_opts rest true docs
      else if bool_decide (opt ∈ ["-n"; "--no-docs"]) then scan_opts rest raw_dataset false
      else scan_opts rest raw_dataset docs
  end.

Section Main.

Variable requests_get : string -> result (option string).

(** [pd.read_csv(path, skiprows=[0,2], index_col='Paper DOI Link')], as
    a function of what the file holds: the frame, or the exception
    pandas raises. *)
Variable read_csv : option content -> result DataFrame.

(** Lines 148-303.  The arguments are what the environment and [getopt]
    give: the two variables, and the options when the command line
    parses ([None] is [GetoptError]).  The value returned is the status
    of [sys.exit].  [os.mkdir] makes a directory, and the world holds
    files only, so lines 169-170 leave it as it is. *)
Definition main (raw_dataset_var docs_var : option string)
  (getopt : option (list string)) : M Z :=
  let raw_dataset := env_raw_dataset raw_dataset_var in
  let docs := env_docs docs_var in
  match getopt with
  | None => print usage;; ret 2
  | Some opts =>
      flags ← scan_opts opts raw_dataset docs;
      match flags with
      | inl code => ret code
      | inr (raw_dataset, docs) =>
          compiled ← path_exists COMPILED_DATA_PATH;
          if compiled : bool then
            print ("Compiled file '" +:+ COMPILED_DATA_PATH +:+ "' already exists, exiting early.");;
            ret 0
          else
            let raw_data_path :=
              if raw_dataset : bool then OUTPUT_PATH +:+ "/" +:+ RAW_DATA_NAME
              else RAW_DATA_NAME in
            download_data requests_get raw_data_path "https://osf.io/download/q2bxh/"
                          (Some RAW_DATA_NAME) (Some OSF_PROJECT);;
            data ← (fun w => (read_csv (files w !! raw_data_path), w));
            compile_and_export requests_get docs data;;
            ret 1
      end
  end.

End Main.

(** ** Notions the statements use *)

(** The flags after the command line, for options without a help one:
    the variable of the environment, switched by the options. *)
Definition raw_dataset_flag (raw_dataset_var : option string) (opts : list string) : bool :=
  env_raw_dataset raw_dataset_var
  || existsb (fun o => bool_decide (o ∈ ["-r"; "--raw-dataset"])) opts.

Definition docs_flag (docs_var : option string) (opts : list string) : bool :=
  env_docs docs_var && negb (existsb (fun o => bool_decide (o ∈ ["-n"; "--no-docs"])) opts).

(** A remote that answers with a response that is ok. *)
Definition answers (requests_get : string -> result (option string)) (url : string) : Prop :=
  ∃ body, requests_get url = Ok (Some body).

(** The tables the frame operations are modelled for: the labels are
    pairwise distinct, as [pd.read_csv] makes them, and none is already
    one of the thirteen target names, so that no two columns carry the
    same label after the renaming. *)
Definition well_labelled (data : DataFrame) : Prop :=
  NoDup (columns data).*1
  ∧ Forall (fun l => l ∉ renamed_columns.*2) (columns data).*1.

(** The status the process ends with: [sys.exit(n)] gives [n], and an
    exception nobody catches gives 1. *)
Definition exit_status (r : result Z) : Z :=
  match r with
  | Ok n => n
  | Raise _ => 1
  end.

(** Line 178. *)
Definition raw_data_path (raw_dataset : bool) : string :=
  if raw_dataset then OUTPUT_PATH +:+ "/" +:+ RAW_DATA_NAME else RAW_DATA_NAME.

(** The dict literal each lookup column is remapped with. *)
Definition lookup_vocabularies : list (string * list (string * Z)) :=
  [("paper_type", paper_type_items);
   ("acm_misclassified", yes_no_items);
   ("open_methodology", open_methodology_items);
   ("open_data", open_data_items);
   ("data_documentation", data_documentation_items);
   ("open_materials", open_materials_items);
   ("materials_documentation", materials_documentation_items);
   ("readme", yes_no_items);
   ("permissible_software_license", yes_no_items);
   ("preregistration", yes_no_items);
   ("reproducible", yes_no_items)].

(** The missing value: the float NaN. *)
Definition missing : pyval := VFloat S754_nan.

(** [','.join(tokens)]. *)
Fixpoint join_comma (tokens : list string) : string :=
  match tokens with
  | [] => EmptyString
  | tok :: rest =>
      match rest with
      | [] => tok
      | _ => tok +:+ "," +:+ join_comma rest
      end
  end.

(** Does a string hold a comma? *)
Fixpoint has_comma (s : string) : bool :=
  match s with
  | EmptyString => false
  | String c rest => Ascii.eqb c ","%char || has_comma rest
  end.

(** The value a run returned, if it returned one. *)
Definition returned {A} (out : result A * World) : option A :=
  match out.1 with
  | Ok a => Some a
  | Raise _ => None
  end.

(** The world with no file and nothing printed. *)
Definition empty_world : World := mkWorld ∅ [].

(** The bit a token stands for under an index mapper without effects:
    what one turn of the loop of [remap_list] ORs into the result. *)
Definition token_bit (index_mapper : StringToInt) (tok : string) : option Z :=
  returned (remap_list_step index_mapper 0 tok empty_world).

(** The union of bit fields. *)
Definition bit_union (bits : list Z) : Z := foldr Z.lor 0 bits.

(** The bits of the four options of reference_degradation. *)
Definition is_option_bit (b : Z) : Prop := b = 1 ∨ b = 2 ∨ b = 4 ∨ b = 8.

(** Is a cell an integer? *)
Definition is_int (v : pyval) : bool :=
  match v with
  | VInt _ => true
  | _ => false
  end.

(** The frame of line 204: the columns renamed, the index named. *)
Definition renamed_frame (data : DataFrame) : DataFrame :=
  set_index_name "doi" (rename (dict_literal renamed_columns) data).

(** A cell a column function turns into an integer. *)
Definition resolves (f : pyval -> M Z) (v : pyval) : Prop :=
  ∃ n, ∀ w, f v w = (Ok n, w).

(** An input table the transform accepts: it has the thirteen columns,
    and every cell of the twelve remapped ones resolves. *)
Definition valid_input (data : DataFrame) : Prop :=
  (∀ l, l ∈ selected_columns -> is_Some (labelled l (columns (renamed_frame data))))
  ∧ (∀ l f cells,
       (l, f) ∈ column_remaps ->
       labelled l (columns (renamed_frame data)) = Some cells ->
       Forall (resolves f) cells).

(** A table of one row as [pd.read_csv] loads it: the columns of the
    survey in the order of the file, with two columns the transform
    drops. *)
Definition sample_table : DataFrame :=
  mkFrame (Some "Paper DOI Link") [VStr "10.1000/1"]
    [("StartDate", [VStr "2023-01-01"]);
     ("Conference Proceedings", [VStr "EDM 2021"]);
     ("Type", [VStr "Research Article"]);
     ("Misclassified", [VStr "Yes"]);
     ("Open Methodology", [VStr "Open Access"]);
     ("Open Data", [VStr "No"]);
     ("Data Documentation", [missing]);
     ("Open Materials", [VStr "Partial"]);
     ("Materials Documentation", [VStr "Full"]);
     ("README", [VStr "No"]);
     ("License", [missing]);
     ("Preregistration", [VStr "No"]);
     ("Reproducible", [VStr "Yes"]);
     ("Reference Degradation", [missing]);
     ("Notes", [VStr "none"])].

(** What the transform makes of [sample_table]. *)
Definition sample_compiled : DataFrame :=
  mkFrame (Some "doi") [VStr "10.1000/1"]
    [("conference_proceedings", [VStr "EDM 2021"]);
     ("paper_type", [VInt 1]);
     ("acm_misclassified", [VInt 1]);
     ("open_methodology", [VInt 2]);
     ("open_data", [VInt 0]);
     ("data_documentation", [VInt (-1)]);
     ("open_materials", [VInt 2]);
     ("materials_documentation", [VInt 2]);
     ("readme", [VInt 0]);
     ("permissible_software_license", [VInt (-1)]);
     ("preregistration", [VInt 0]);
     ("reproducible", [VInt 1]);
     ("reference_degradation", [VInt 0])].

(** The same table with a paper type outside the vocabulary. *)
Definition unknown_table : DataFrame :=
  mkFrame (index_name sample_table) (index sample_table)
    (set_cells "Type" [VStr "Journal"] (columns sample_table)).

(** A computation that leaves the world as it is and whose result does
    not depend on it. *)
Definition pure_comp {A} (c : M A) : Prop := ∃ r, ∀ w, c w = (r, w).

(** A mapper without effects: a table always is, a callable is when
    each of its calls is. *)
Definition pure_mapper (mapper : StringToInt) : Prop :=
  match mapper with
  | Mapping _ => True
  | Callable f => ∀ v, pure_comp (f v)
  end.

(** * Properties *)

(** Splitting the membership in a literal list into its cases. *)
Ltac list_cases H :=
  repeat (apply elem_of_cons in H; destruct H as [H|H]);
  [..| apply elem_of_nil in H; destruct H].

(** ** Running the monad *)

Lemma run_bind {A B} (c : M A) (k : A -> M B) w :
  (c ≫= k) w = match c w with
               | (Ok a, w') => k a w'
               | (Raise e, w') => (Raise e, w')
               end.
Proof. reflexivity. Qed.

Lemma run_bind_ok {A B} (c : M A) (k : A -> M B) w a w' :
  c w = (Ok a, w') -> (c ≫= k) w = k a w'.
Proof. intros E. rewrite run_bind, E. reflexivity. Qed.

Lemma run_bind_raise {A B} (c : M A) (k : A -> M B) w e w' :
  c w = (Raise e, w') -> (c ≫= k) w = (Raise e, w').
Proof. intros E. rewrite run_bind, E. reflexivity. Qed.

Lemma pure_ret {A} (a : A) : pure_comp (ret a).
Proof. exists (Ok a). reflexivity. Qed.

Lemma pure_raise {A} e : pure_comp (@raise A e).
Proof. exists (Raise e). reflexivity. Qed.

Lemma pure_bind {A B} (c : M A) (k : A -> M B) :
  pure_comp c -> (∀ a, pure_comp (k a)) -> pure_comp (c ≫= k).
Proof.
  intros [r Hc] Hk. destruct r as [a|e].
  - destruct (Hk a) as [r' Hr']. exists r'. intros w.
    rewrite (run_bind_ok _ _ _ _ _ (Hc w)). apply Hr'.
  - exists (Raise e). intros w. apply run_bind_raise, Hc.
Qed.

Lemma pure_for_each {A B} (body : A -> B -> M A) xs :
  (∀ acc x, x ∈ xs -> pure_comp (body acc x)) ->
  ∀ acc, pure_comp (for_each body xs acc).
Proof.
  induction xs as [|x xs IH]; intros Hb acc; simpl.
  - apply pure_ret.
  - apply pure_bind.
    + apply Hb. left.
    + intros acc'. apply IH. intros a y Hy. apply Hb. right. exact Hy.
Qed.

Lemma pure_map_each {A B} (f : A -> M B) xs :
  (∀ x, x ∈ xs -> pure_comp (f x)) -> pure_comp (map_each f xs).
Proof.
  induction xs as [|x xs IH]; intros Hf; simpl.
  - apply pure_ret.
  - apply pure_bind; [apply Hf; left|]. intros y.
    apply pure_bind; [apply IH; intros z Hz; apply Hf; right; exact Hz|].
    intros ys. apply pure_ret.
Qed.

Lemma pure_getitem m value : pure_comp (getitem m value).
Proof.
  destruct value as [k| |]; simpl; try apply pure_raise.
  destruct (m !! k); [apply pure_ret | apply pure_raise].
Qed.

Lemma pure_remap_to_int value mapper nan :
  pure_mapper mapper -> pure_comp (remap_to_int value mapper nan).
Proof.
  intros Hm. unfold remap_to_int.
  destruct (is_float_nan value); [apply pure_ret|].
  destruct mapper as [m|f]; [apply pure_getitem | apply Hm].
Qed.

Lemma pure_shl_one n : pure_comp (shl_one n).
Proof. unfold shl_one. destruct (n <? 0); [apply pure_raise | apply pure_ret]. Qed.

Lemma pure_index_of mapper t : pure_mapper mapper -> pure_comp (index_of mapper t).
Proof. intros Hm. destruct mapper as [m|f]; [apply pure_getitem | apply Hm]. Qed.

Lemma pure_remap_list values mapper :
  pure_mapper mapper -> pure_comp (remap_list values mapper).
Proof.
  intros Hm. apply pure_for_each. intros acc t _.
  unfold remap_list_step.
  apply pure_bind; [apply pure_index_of, Hm|]. intros i.
  apply pure_bind; [apply pure_shl_one|]. intros b. apply pure_ret.
Qed.

Lemma pure_reference_degradation_mapper v : pure_comp (reference_degradation_mapper v).
Proof.
  destruct v; simpl; try apply pure_raise. apply pure_remap_list. exact I.
Qed.

Lemma pure_remap_lookup items v : pure_comp (remap_lookup items v).
Proof. apply pure_remap_to_int. exact I. Qed.

Lemma pure_remap_yes_no v : pure_comp (remap_yes_no v).
Proof. apply pure_remap_to_int. exact I. Qed.

Lemma pure_remap_reference_degradation v : pure_comp (remap_reference_degradation v).
Proof. apply pure_remap_to_int. exact pure_reference_degradation_mapper. Qed.

Lemma pure_column_remaps label f v :
  (label, f) ∈ column_remaps -> pure_comp (f v).
Proof.
  intros H. unfold column_remaps in H. list_cases H; inversion H; subst;
    first [apply pure_remap_lookup | apply pure_remap_yes_no
          | apply pure_remap_reference_degradation].
Qed.

(** ** Dict literals *)

Lemma dict_literal_snoc {V} (items : list (string * V)) k v :
  dict_literal (items ++ [(k, v)]) = <[k := v]> (dict_literal items).
Proof. unfold dict_literal. rewrite fold_left_app. reflexivity. Qed.

(** A literal whose keys are pairwise distinct holds each item as it
    is written. *)
Lemma dict_literal_lookup {V} (items : list (string * V)) k v :
  NoDup items.*1 -> (k, v) ∈ items -> dict_literal items !! k = Some v.
Proof.
  induction items as [|[k' v'] items IH] using rev_ind; intros Hnd Hin.
  - apply elem_of_nil in Hin. destruct Hin.
  - rewrite dict_literal_snoc. rewrite fmap_app in Hnd. simpl in Hnd.
    apply NoDup_app in Hnd as (Hnd & Hfresh & _).
    apply elem_of_app in Hin as [Hin|Hin].
    + rewrite lookup_insert_ne; [apply IH; assumption|].
      intros ->. apply (Hfresh k).
      * apply list_elem_of_fmap. exists (k, v). split; [reflexivity | assumption].
      * left.
    + apply list_elem_of_singleton in Hin. inversion Hin; subst.
      apply lookup_insert_eq.
Qed.

(** ** The value remapper *)

Lemma remap_to_int_mapping_hit m k n nan w :
  m !! k = Some n -> remap_to_int (VStr k) (Mapping m) nan w = (Ok n, w).
Proof. intros E. unfold remap_to_int. simpl. rewrite E. reflexivity. Qed.

Lemma remap_lookup_hit items k n w :
  NoDup items.*1 -> (k, n) ∈ items -> remap_lookup items (VStr k) w = (Ok n, w).
Proof.
  intros Hnd Hin. apply remap_to_int_mapping_hit, dict_literal_lookup; assumption.
Qed.

Lemma remap_to_int_missing mapper nan w :
  remap_to_int missing mapper nan w = (Ok nan, w).
Proof. reflexivity. Qed.

(** C1: a value of the vocabulary of a lookup rule is remapped to the
    integer the table gives it.  This holds for every table, and for
    the dict literal of each of the eleven lookup columns of the main
    block: every item [(k, n)] of the literal makes the function of the
    column return [n] on [k].  The thirteenth column,
    reference_degradation, has a table of bit positions: a value of
    that table at position [i] is remapped to the integer whose only
    set bit is bit [i]. *)
Theorem remap_vocabulary :
  (∀ m k n nan w,
      m !! k = Some n -> remap_to_int (VStr k) (Mapping m) nan w = (Ok n, w))
  ∧ (∀ label items f k n w,
      (label, items) ∈ lookup_vocabularies ->
      labelled label column_remaps = Some f ->
      (k, n) ∈ items ->
      f (VStr k) w = (Ok n, w))
  ∧ (∀ k i w,
      (k, i) ∈ reference_degradation_items ->
      remap_reference_degradation (VStr k) w = (Ok (Z.shiftl 1 i), w)).
Proof.
  split; [exact remap_to_int_mapping_hit|]. split.
  - intros label items f k n w Hv Hf Hin.
    unfold lookup_vocabularies in Hv.
    list_cases Hv; injection Hv as -> ->; cbn in Hf; injection Hf as <-;
      (apply remap_lookup_hit; [|exact Hin]);
      apply (bool_decide_unpack _); vm_compute; exact I.
  - intros k i w Hin. unfold reference_degradation_items in Hin.
    list_cases Hin; inversion Hin; subst; reflexivity.
Qed.

Lemma remap_vocabulary_witness :
  remap_lookup paper_type_items (VStr "Research Article") (mkWorld ∅ []) = (Ok 1, mkWorld ∅ [])
  ∧ remap_lookup paper_type_items (VStr "Short paper") (mkWorld ∅ []) = (Ok 2, mkWorld ∅ [])
  ∧ remap_lookup paper_type_items (VStr "Poster") (mkWorld ∅ []) = (Ok 3, mkWorld ∅ []).
Proof.
  destruct remap_vocabulary as (_ & H & _).
  repeat split;
    apply (H "paper_type" paper_type_items); try reflexivity;
    unfold lookup_vocabularies, paper_type_items; set_solver.
Defined.

(** C2: a missing value is remapped to the sentinel whatever the rule
    is, a table or a callable (which is not called: one that always
    raises makes no difference); the sentinel is the default -1 for the
    eleven lookup and yes/no columns and 0 for reference_degradation. *)
Theorem remap_missing :
  (∀ mapper nan w, remap_to_int missing mapper nan w = (Ok nan, w))
  ∧ default_nan = -1
  ∧ (∀ label f w,
      (label, f) ∈ column_remaps ->
      f missing w = (Ok (if String.eqb label "reference_degradation" then 0 else -1), w)).
Proof.
  split; [exact remap_to_int_missing|]. split; [reflexivity|].
  intros label f w H. unfold column_remaps in H.
  list_cases H; inversion H; subst; reflexivity.
Qed.

(** C2 at the two sentinels: a lookup column and reference_degradation. *)
Lemma remap_missing_witness :
  remap_lookup paper_type_items missing empty_world = (Ok (-1), empty_world)
  ∧ remap_reference_degradation missing empty_world = (Ok 0, empty_world).
Proof.
  destruct remap_missing as (_ & _ & H). split.
  - apply (H "paper_type"). apply list_elem_of_here.
  - apply (H "reference_degradation").
    unfold column_remaps. repeat first [apply list_elem_of_here | apply list_elem_of_further].
Defined.

(** C4: a value that is not missing and is no key of the table of a
    lookup rule makes [remap_to_int] raise [KeyError] (the
    UnknownCategory of the specification); no integer is returned. *)
Theorem remap_unknown value m nan w :
  is_float_nan value = false ->
  (∀ k, value = VStr k -> m !! k = None) ->
  remap_to_int value (Mapping m) nan w = (Raise (KeyError value), w).
Proof.
  intros Hnan Hkey. unfold remap_to_int. rewrite Hnan.
  destruct value as [k| |]; simpl; try reflexivity.
  rewrite (Hkey k eq_refl). reflexivity.
Qed.

Lemma remap_unknown_witness :
  is_float_nan (VStr "Maybe") = false
  ∧ (∀ k, VStr "Maybe" = VStr k -> dict_literal yes_no_items !! k = None)
  ∧ remap_to_int (VStr "Maybe") (Mapping (dict_literal yes_no_items)) (-1) (mkWorld ∅ [])
    = (Raise (KeyError (VStr "Maybe")), mkWorld ∅ []).
Proof.
  assert (H : ∀ k, VStr "Maybe" = VStr k -> dict_literal yes_no_items !! k = None).
  { intros k E. inversion E; subst. vm_compute. reflexivity. }
  split; [reflexivity|]. split; [exact H|].
  apply remap_unknown; [reflexivity | exact H].
Defined.

(** C9: with a rule that has no effects of its own (every table, and
    every callable whose calls have none), [remap_to_int] returns the
    same result in every world it is run in and leaves the world as it
    found it. *)
Theorem remap_to_int_deterministic value mapper nan :
  pure_mapper mapper ->
  ∀ w1 w2,
    fst (remap_to_int value mapper nan w1) = fst (remap_to_int value mapper nan w2)
    ∧ snd (remap_to_int value mapper nan w1) = w1.
Proof.
  intros Hm w1 w2. destruct (pure_remap_to_int value mapper nan Hm) as [r Hr].
  rewrite (Hr w1), (Hr w2). split; reflexivity.
Qed.

Lemma remap_to_int_deterministic_witness :
  pure_mapper (Callable reference_degradation_mapper)
  ∧ fst (remap_to_int (VStr "Open Data") (Callable reference_degradation_mapper) 0 (mkWorld ∅ []))
    = fst (remap_to_int (VStr "Open Data") (Callable reference_degradation_mapper) 0
             (mkWorld ∅ ["Downloading"]))
  ∧ snd (remap_to_int (VStr "Open Data") (Callable reference_degradation_mapper) 0 (mkWorld ∅ []))
    = mkWorld ∅ [].
Proof.
  split; [exact pure_reference_degradation_mapper|].
  apply (remap_to_int_deterministic (VStr "Open Data") (Callable reference_degradation_mapper) 0
           pure_reference_degradation_mapper).
Defined.

(** ** Splitting and joining *)

Lemma split_comma_nonempty s : split_comma s ≠ [].
Proof.
  destruct s as [|c s]; simpl; [discriminate|].
  destruct (Ascii.eqb c ","); [discriminate|].
  destruct (split_comma s); discriminate.
Qed.

Lemma join_comma_cons tok rest :
  rest ≠ [] -> join_comma (tok :: rest) = tok +:+ "," +:+ join_comma rest.
Proof. destruct rest; [congruence | reflexivity]. Qed.

(** Joining the tokens gives the string back. *)
Lemma join_split_comma s : join_comma (split_comma s) = s.
Proof.
  induction s as [|c s IH]; [reflexivity|]. simpl.
  destruct (Ascii.eqb_spec c ",") as [->|Hc].
  - rewrite join_comma_cons by apply split_comma_nonempty. rewrite IH. reflexivity.
  - pose proof (split_comma_nonempty s) as Hne.
    destruct (split_comma s) as [|tok toks]; [congruence|].
    destruct toks as [|tok' toks].
    + simpl in *. congruence.
    + rewrite join_comma_cons by discriminate.
      rewrite join_comma_cons in IH by discriminate.
      simpl. rewrite <- IH. reflexivity.
Qed.

(** No token holds a comma. *)
Lemma split_comma_free s : Forall (fun tok => has_comma tok = false) (split_comma s).
Proof.
  induction s as [|c s IH]; simpl; [repeat constructor|].
  destruct (Ascii.eqb c ",") eqn:Hc; [constructor; [reflexivity | exact IH]|].
  destruct (split_comma s) as [|tok toks]; [repeat constructor; simpl; rewrite Hc; reflexivity|].
  inversion IH; subst. constructor; [|assumption]. simpl. rewrite Hc. assumption.
Qed.

Lemma split_comma_app a b :
  split_comma (a +:+ "," +:+ b) = (split_comma a ++ split_comma b)%list.
Proof.
  induction a as [|c a IH]; [reflexivity|]. simpl.
  destruct (Ascii.eqb c ","); [rewrite IH; reflexivity|].
  rewrite IH. pose proof (split_comma_nonempty a) as Hne.
  destruct (split_comma a); [congruence | reflexivity].
Qed.

(** Splitting a join splits every token again: a token without a comma
    comes back as it is. *)
Lemma split_join_comma tokens :
  tokens ≠ [] -> split_comma (join_comma tokens) = mjoin (split_comma <$> tokens).
Proof.
  induction tokens as [|tok rest IH]; [congruence|]. intros _.
  destruct rest as [|tok' rest].
  - simpl. rewrite app_nil_r. reflexivity.
  - rewrite join_comma_cons by discriminate. rewrite split_comma_app.
    rewrite IH by discriminate. reflexivity.
Qed.

Lemma split_comma_token tok : has_comma tok = false -> split_comma tok = [tok].
Proof.
  induction tok as [|c tok IH]; [reflexivity|]. simpl.
  destruct (Ascii.eqb c ","); [discriminate|]. simpl. intros H.
  rewrite (IH H). reflexivity.
Qed.

Lemma elem_of_split_join tokens tok :
  tokens ≠ [] ->
  tok ∈ split_comma (join_comma tokens) ↔ ∃ t, t ∈ tokens ∧ tok ∈ split_comma t.
Proof.
  intros Hne. rewrite (split_join_comma _ Hne). rewrite list_elem_of_join.
  split.
  - intros (l & Htok & Hl). apply list_elem_of_fmap in Hl as (t & -> & Ht). eauto.
  - intros (t & Ht & Htok). exists (split_comma t). split; [assumption|].
    apply list_elem_of_fmap. eauto.
Qed.

(** ** The loop of [remap_list] *)

(** One turn of the loop, when the index mapper has no effects. *)
Lemma remap_list_step_run index_mapper tok r :
  (∀ w, index_of index_mapper tok w = (r, w)) ->
  ∀ acc w,
    remap_list_step index_mapper acc tok w
    = (match r with
       | Ok i => if i <? 0 then Raise ValueError else Ok (Z.lor acc (Z.shiftl 1 i))
       | Raise e => Raise e
       end, w).
Proof.
  intros Hr acc w. unfold remap_list_step. rewrite run_bind, Hr.
  destruct r as [i|e]; [|reflexivity].
  rewrite run_bind. unfold shl_one. destruct (i <? 0); reflexivity.
Qed.

Lemma token_bit_run index_mapper tok r :
  (∀ w, index_of index_mapper tok w = (r, w)) ->
  token_bit index_mapper tok
  = match r with
    | Ok i => if i <? 0 then None else Some (Z.shiftl 1 i)
    | Raise _ => None
    end.
Proof.
  intros Hr. unfold token_bit. rewrite (remap_list_step_run _ _ _ Hr).
  destruct r as [i|e]; [|reflexivity]. destruct (i <? 0); reflexivity.
Qed.

Lemma token_bit_mapping m tok :
  token_bit (Mapping m) tok
  = match m !! tok with
    | Some i => if i <? 0 then None else Some (Z.shiftl 1 i)
    | None => None
    end.
Proof.
  destruct (m !! tok) as [i|] eqn:E.
  - apply (token_bit_run (Mapping m) tok (Ok i)). intros w. simpl. rewrite E. reflexivity.
  - apply (token_bit_run (Mapping m) tok (Raise (KeyError (VStr tok)))).
    intros w. simpl. rewrite E. reflexivity.
Qed.

Lemma remap_list_step_some index_mapper tok b :
  pure_mapper index_mapper -> token_bit index_mapper tok = Some b ->
  ∀ acc w, remap_list_step index_mapper acc tok w = (Ok (Z.lor acc b), w).
Proof.
  intros Hm Hb acc w. destruct (pure_index_of index_mapper tok Hm) as [r Hr].
  rewrite (token_bit_run _ _ _ Hr) in Hb. rewrite (remap_list_step_run _ _ _ Hr).
  destruct r as [i|e]; [|discriminate]. destruct (i <? 0); [discriminate|].
  injection Hb as <-. reflexivity.
Qed.

Lemma remap_list_step_none index_mapper tok :
  pure_mapper index_mapper -> token_bit index_mapper tok = None ->
  ∃ e, ∀ acc w, remap_list_step index_mapper acc tok w = (Raise e, w).
Proof.
  intros Hm Hb. destruct (pure_index_of index_mapper tok Hm) as [r Hr].
  rewrite (token_bit_run _ _ _ Hr) in Hb.
  destruct r as [i|e].
  - exists ValueError. intros acc w. rewrite (remap_list_step_run _ _ _ Hr).
    destruct (i <? 0); [reflexivity | discriminate].
  - exists e. intros acc w. apply (remap_list_step_run _ _ _ Hr).
Qed.

(** When every token has a bit, the loop returns their union. *)
Lemma remap_list_loop_ok index_mapper tokens :
  pure_mapper index_mapper ->
  Forall (fun tok => is_Some (token_bit index_mapper tok)) tokens ->
  ∀ acc w,
    for_each (remap_list_step index_mapper) tokens acc w
    = (Ok (Z.lor acc (bit_union (omap (token_bit index_mapper) tokens))), w).
Proof.
  intros Hm. induction 1 as [|tok tokens [b Hb] _ IH]; intros acc w; simpl.
  - rewrite Z.lor_0_r. reflexivity.
  - rewrite (run_bind_ok _ _ _ _ _ (remap_list_step_some _ _ _ Hm Hb acc w)).
    rewrite IH, Hb. simpl. rewrite Z.lor_assoc. reflexivity.
Qed.

(** When some token has none, the loop raises. *)
Lemma remap_list_loop_raise index_mapper tokens :
  pure_mapper index_mapper ->
  Exists (fun tok => token_bit index_mapper tok = None) tokens ->
  ∀ acc w, ∃ e, for_each (remap_list_step index_mapper) tokens acc w = (Raise e, w).
Proof.
  intros Hm. induction tokens as [|tok tokens IH]; intros Hex acc w.
  - inversion Hex.
  - simpl. destruct (token_bit index_mapper tok) as [b|] eqn:Hb.
    + rewrite (run_bind_ok _ _ _ _ _ (remap_list_step_some _ _ _ Hm Hb acc w)).
      apply IH. inversion Hex; subst; [congruence | assumption].
    + destruct (remap_list_step_none _ _ Hm Hb) as [e He]. exists e.
      apply run_bind_raise, He.
Qed.

Lemma tokens_all_or_not index_mapper (tokens : list string) :
  Forall (fun tok => is_Some (token_bit index_mapper tok)) tokens
  ∨ Exists (fun tok => token_bit index_mapper tok = None) tokens.
Proof.
  induction tokens as [|tok tokens [IH|IH]].
  - left. constructor.
  - destruct (token_bit index_mapper tok) as [b|] eqn:Hb.
    + left. constructor; [rewrite Hb; eauto | assumption].
    + right. left. assumption.
  - right. right. assumption.
Qed.

(** ** Bits of a union *)

Lemma testbit_bit_union bits b :
  Z.testbit (bit_union bits) b = true ↔ ∃ x, x ∈ bits ∧ Z.testbit x b = true.
Proof.
  induction bits as [|x bits IH]; simpl.
  - rewrite Z.bits_0. split; [discriminate|]. intros (x & Hx & _).
    apply elem_of_nil in Hx. destruct Hx.
  - rewrite Z.lor_spec, orb_true_iff, IH. split.
    + intros [H|(y & Hy & H)]; [exists x | exists y]; split; try assumption;
        [left | right; assumption].
    + intros (y & Hy & H). apply elem_of_cons in Hy as [->|Hy]; [left | right; eauto].
      assumption.
Qed.

Lemma testbit_shiftl_one i b :
  0 <= i -> Z.testbit (Z.shiftl 1 i) b = true ↔ i = b.
Proof.
  intros Hi. rewrite Z.shiftl_1_l, (Z.pow2_bits_eqb i b Hi). apply Z.eqb_eq.
Qed.

(** The union depends on the set of its members only. *)
Lemma bit_union_set bits bits' :
  (∀ x, x ∈ bits ↔ x ∈ bits') -> bit_union bits = bit_union bits'.
Proof.
  intros Hset. apply Z.bits_inj. intros b. apply eq_true_iff_eq.
  rewrite !testbit_bit_union. split; intros (x & Hx & H); exists x;
    (split; [apply Hset|]; assumption).
Qed.

(** What [remap_list] returns depends on the set of its tokens only. *)
Lemma remap_list_loop_set index_mapper tokens tokens' w w' :
  pure_mapper index_mapper ->
  (∀ tok, tok ∈ tokens ↔ tok ∈ tokens') ->
  returned (for_each (remap_list_step index_mapper) tokens 0 w)
  = returned (for_each (remap_list_step index_mapper) tokens' 0 w').
Proof.
  intros Hm Hset.
  destruct (tokens_all_or_not index_mapper tokens) as [Hall|Hex].
  - assert (Hall' : Forall (fun tok => is_Some (token_bit index_mapper tok)) tokens').
    { rewrite Forall_forall in *. intros tok Htok. apply Hall, Hset, Htok. }
    rewrite (remap_list_loop_ok _ _ Hm Hall), (remap_list_loop_ok _ _ Hm Hall').
    unfold returned. simpl. f_equal. f_equal. apply bit_union_set.
    intros x. rewrite !list_elem_of_omap. split; intros (tok & Htok & H); exists tok;
      (split; [apply Hset|]; assumption).
  - assert (Hex' : Exists (fun tok => token_bit index_mapper tok = None) tokens').
    { rewrite Exists_exists in *. destruct Hex as (tok & Htok & H). exists tok.
      split; [apply Hset|]; assumption. }
    destruct (remap_list_loop_raise _ _ Hm Hex 0 w) as [e ->].
    destruct (remap_list_loop_raise _ _ Hm Hex' 0 w') as [e' ->]. reflexivity.
Qed.

(** ** The bit field of a list *)

Lemma remap_list_ok values index_mapper w :
  pure_mapper index_mapper ->
  Forall (fun tok => is_Some (token_bit index_mapper tok)) (split_comma values) ->
  remap_list values index_mapper w
  = (Ok (bit_union (omap (token_bit index_mapper) (split_comma values))), w).
Proof.
  intros Hm Hall. unfold remap_list. rewrite (remap_list_loop_ok _ _ Hm Hall).
  rewrite Z.lor_0_l. reflexivity.
Qed.

(** A run of [remap_list] that returns has found a bit for every token. *)
Lemma remap_list_ok_inv values index_mapper w n w' :
  pure_mapper index_mapper ->
  remap_list values index_mapper w = (Ok n, w') ->
  Forall (fun tok => is_Some (token_bit index_mapper tok)) (split_comma values)
  ∧ n = bit_union (omap (token_bit index_mapper) (split_comma values))
  ∧ w' = w.
Proof.
  intros Hm Hrun.
  destruct (tokens_all_or_not index_mapper (split_comma values)) as [Hall|Hex].
  - rewrite (remap_list_ok _ _ _ Hm Hall) in Hrun. injection Hrun as <- <-. auto.
  - destruct (remap_list_loop_raise _ _ Hm Hex 0 w) as [e He].
    unfold remap_list in Hrun. rewrite He in Hrun. discriminate.
Qed.

(** C3: [remap_list] splits its input at the commas (the tokens joined
    by commas are the input, and no token holds a comma), resolves each
    token through the index rule, and returns the OR of [1 << index]
    over the tokens: when every token [tok] resolves to an index
    [idx tok >= 0], bit [b] of the result is set exactly when some
    token has index [b].  With the table of reference_degradation,
    "Open Data,Preregistration" gives [(1 << 1) | (1 << 3) = 10]. *)
Theorem remap_list_bit_field :
  (∀ values index_mapper (idx : string -> Z) w,
      pure_mapper index_mapper ->
      (∀ tok, tok ∈ split_comma values ->
              (index_of index_mapper tok w).1 = Ok (idx tok) ∧ 0 <= idx tok) ->
      join_comma (split_comma values) = values
      ∧ Forall (fun tok => has_comma tok = false) (split_comma values)
      ∧ remap_list values index_mapper w
        = (Ok (bit_union ((fun tok => Z.shiftl 1 (idx tok)) <$> split_comma values)), w)
      ∧ (∀ b, Z.testbit (bit_union ((fun tok => Z.shiftl 1 (idx tok)) <$> split_comma values)) b
              = true
              ↔ ∃ tok, tok ∈ split_comma values ∧ idx tok = b))
  ∧ (∀ w, remap_list "Open Data,Preregistration"
            (Mapping (dict_literal reference_degradation_items)) w = (Ok 10, w)).
Proof.
  split; [|reflexivity].
  intros values index_mapper idx w Hm Hidx.
  split; [apply join_split_comma|]. split; [apply split_comma_free|].
  assert (Hbit : ∀ tok, tok ∈ split_comma values ->
                        token_bit index_mapper tok = Some (Z.shiftl 1 (idx tok))).
  { intros tok Htok. destruct (Hidx tok Htok) as [Hi Hpos].
    destruct (pure_index_of index_mapper tok Hm) as [r Hr].
    rewrite (Hr w) in Hi. simpl in Hi. subst r.
    rewrite (token_bit_run _ _ _ Hr).
    destruct (Z.ltb_spec (idx tok) 0); [lia | reflexivity]. }
  split.
  - rewrite remap_list_ok; [|assumption|].
    + f_equal. f_equal. f_equal.
      induction (split_comma values) as [|tok toks IH]; [reflexivity|].
      simpl. rewrite (Hbit tok) by left. simpl. f_equal.
      apply IH.
      * intros t Ht. apply Hidx. right. exact Ht.
      * intros t Ht. apply Hbit. right. exact Ht.
    + apply Forall_forall. intros tok Htok. rewrite (Hbit tok Htok). eauto.
  - intros b. rewrite testbit_bit_union. split.
    + intros (x & Hx & Hb). apply list_elem_of_fmap in Hx as (tok & -> & Htok).
      exists tok. split; [assumption|].
      apply testbit_shiftl_one; [apply Hidx, Htok | assumption].
    + intros (tok & Htok & <-). exists (Z.shiftl 1 (idx tok)). split.
      * apply list_elem_of_fmap. eauto.
      * apply testbit_shiftl_one; [apply Hidx, Htok | reflexivity].
Qed.

Lemma remap_list_bit_field_witness :
  pure_mapper (Mapping (dict_literal reference_degradation_items))
  ∧ remap_list "Open Data,Preregistration"
      (Mapping (dict_literal reference_degradation_items)) empty_world
    = (Ok 10, empty_world).
Proof.
  split; [exact I|].
  destruct remap_list_bit_field as [H _].
  refine (proj1 (proj2 (proj2
    (H "Open Data,Preregistration" (Mapping (dict_literal reference_degradation_items))
       (fun tok => default 0 (dict_literal reference_degradation_items !! tok))
       empty_world I _)))).
  intros tok Htok. change (tok ∈ ["Open Data"; "Preregistration"]) in Htok.
  list_cases Htok; subst tok; split; first [reflexivity | vm_compute; discriminate].
Defined.

Lemma mjoin_split_tokens tokens :
  Forall (fun tok => has_comma tok = false) tokens ->
  mjoin (split_comma <$> tokens) = tokens.
Proof.
  induction 1 as [|tok tokens Htok _ IH]; [reflexivity|].
  change (mjoin (split_comma <$> tok :: tokens))
    with (split_comma tok ++ mjoin (split_comma <$> tokens))%list.
  rewrite (split_comma_token _ Htok), IH. reflexivity.
Qed.

(** C5: what [remap_list] returns depends on the set of the tokens
    only.  For every index rule without effects and all token lists
    with the same members (so: one is the other with tokens repeated or
    in another order), the joined strings give the same integer, or
    both runs raise; over the vocabulary of a table with indices that
    are not negative the runs return.  "Open Data,Open Data" gives what
    "Open Data" gives. *)
Theorem remap_list_union :
  (∀ index_mapper (tokens tokens' : list string) w w',
      pure_mapper index_mapper ->
      tokens ⊆ tokens' -> tokens' ⊆ tokens ->
      returned (remap_list (join_comma tokens) index_mapper w)
      = returned (remap_list (join_comma tokens') index_mapper w'))
  ∧ (∀ m (tokens : list string) w,
      tokens ≠ [] ->
      Forall (fun tok => has_comma tok = false ∧ ∃ i, m !! tok = Some i ∧ 0 <= i) tokens ->
      ∃ n, remap_list (join_comma tokens) (Mapping m) w = (Ok n, w))
  ∧ (∀ w, remap_list "Open Data,Open Data"
            (Mapping (dict_literal reference_degradation_items)) w
          = remap_list "Open Data"
              (Mapping (dict_literal reference_degradation_items)) w).
Proof.
  split; [|split; [|reflexivity]].
  - intros index_mapper tokens tokens' w w' Hm Hsub Hsub'.
    apply remap_list_loop_set; [assumption|].
    destruct tokens as [|t0 tokens].
    + destruct tokens' as [|t0' tokens']; [tauto|].
      exfalso. apply (elem_of_nil t0'), Hsub'. left.
    + assert (Hne' : tokens' ≠ []).
      { intros ->. apply (elem_of_nil t0), Hsub. left. }
      intros tok. rewrite !elem_of_split_join by (assumption || discriminate).
      split; intros (t & Ht & Htok); exists t; (split; [|assumption]).
      * apply Hsub, Ht.
      * apply Hsub', Ht.
  - intros m tokens w Hne Hall. eexists. apply remap_list_ok; [exact I|].
    rewrite (split_join_comma _ Hne), mjoin_split_tokens.
    + eapply Forall_impl; [exact Hall|]. intros tok (_ & i & Hi & Hpos).
      rewrite token_bit_mapping, Hi.
      destruct (Z.ltb_spec i 0); [lia | eauto].
    + eapply Forall_impl; [exact Hall|]. intros tok [H _]. exact H.
Qed.

Lemma remap_list_union_witness :
  pure_mapper (Mapping (dict_literal reference_degradation_items))
  ∧ ["Open Data"; "Preregistration"] ⊆ ["Preregistration"; "Open Data"; "Open Data"]
  ∧ ["Preregistration"; "Open Data"; "Open Data"] ⊆ ["Open Data"; "Preregistration"]
  ∧ returned (remap_list "Open Data,Preregistration"
               (Mapping (dict_literal reference_degradation_items)) empty_world)
    = Some 10
  ∧ returned (remap_list "Preregistration,Open Data,Open Data"
               (Mapping (dict_literal reference_degradation_items)) empty_world)
    = Some 10.
Proof.
  assert (H1 : ["Open Data"; "Preregistration"] ⊆ ["Preregistration"; "Open Data"; "Open Data"]).
  { intros tok Htok. list_cases Htok; subst tok;
      repeat first [apply list_elem_of_here | apply list_elem_of_further]. }
  assert (H2 : ["Preregistration"; "Open Data"; "Open Data"] ⊆ ["Open Data"; "Preregistration"]).
  { intros tok Htok. list_cases Htok; subst tok;
      repeat first [apply list_elem_of_here | apply list_elem_of_further]. }
  split; [exact I|]. split; [exact H1|]. split; [exact H2|].
  split; [reflexivity|].
  destruct remap_list_union as [H _].
  refine (eq_trans (eq_sym (H (Mapping (dict_literal reference_degradation_items))
                              ["Open Data"; "Preregistration"]
                              ["Preregistration"; "Open Data"; "Open Data"]
                              empty_world empty_world I H1 H2)) _).
  reflexivity.
Defined.

(** C6: the empty string splits into one token, the empty string, and
    [remap_list] looks that token up like any other: with a table that
    has no empty key it raises [KeyError] (UnknownCategory), with a
    callable it raises what the callable raises on the empty string.
    An empty segment anywhere in the input is never skipped as a
    missing value: the run raises unless the rule maps the empty
    string. *)
Theorem remap_list_empty_string :
  split_comma EmptyString = [EmptyString]
  ∧ (∀ m w, m !! EmptyString = None ->
            remap_list EmptyString (Mapping m) w = (Raise (KeyError (VStr EmptyString)), w))
  ∧ (∀ f e w w', f (VStr EmptyString) w = (Raise e, w') ->
                 remap_list EmptyString (Callable f) w = (Raise e, w'))
  ∧ (∀ m values w, EmptyString ∈ split_comma values -> m !! EmptyString = None ->
                   ∃ e, remap_list values (Mapping m) w = (Raise e, w))
  ∧ (∀ w, remap_list EmptyString (Mapping (dict_literal reference_degradation_items)) w
          = (Raise (KeyError (VStr EmptyString)), w)).
Proof.
  split; [reflexivity|]. split; [|split; [|split; [|reflexivity]]].
  - intros m w Hm. unfold remap_list. simpl split_comma. simpl for_each.
    apply run_bind_raise.
    rewrite (remap_list_step_run (Mapping m) EmptyString (Raise (KeyError (VStr EmptyString)))).
    + reflexivity.
    + intros w1. simpl. rewrite Hm. reflexivity.
  - intros f e w w' Hf. unfold remap_list. simpl split_comma. simpl for_each.
    apply run_bind_raise. unfold remap_list_step. apply run_bind_raise. exact Hf.
  - intros m values w Hin Hm. apply remap_list_loop_raise; [exact I|].
    apply Exists_exists. exists EmptyString. split; [assumption|].
    rewrite token_bit_mapping, Hm. reflexivity.
Qed.

Lemma remap_list_empty_string_witness :
  dict_literal yes_no_items !! EmptyString = None
  ∧ EmptyString ∈ split_comma "Yes,,No"
  ∧ remap_list EmptyString (Mapping (dict_literal yes_no_items)) empty_world
    = (Raise (KeyError (VStr EmptyString)), empty_world)
  ∧ ∃ e, remap_list "Yes,,No" (Mapping (dict_literal yes_no_items)) empty_world
         = (Raise e, empty_world).
Proof.
  assert (Hm : dict_literal yes_no_items !! EmptyString = None) by (vm_compute; reflexivity).
  assert (Hin : EmptyString ∈ split_comma "Yes,,No").
  { change (EmptyString ∈ ["Yes"; EmptyString; "No"]). apply list_elem_of_further, list_elem_of_here. }
  destruct remap_list_empty_string as (_ & H1 & _ & H2 & _).
  split; [exact Hm|]. split; [exact Hin|]. split.
  - apply H1, Hm.
  - apply H2; assumption.
Defined.

(** ** The range of reference_degradation *)

Lemma dict_literal_lookup_inv {V} (items : list (string * V)) k v :
  dict_literal items !! k = Some v -> (k, v) ∈ items.
Proof.
  induction items as [|[k' v'] items IH] using rev_ind; intros H.
  - unfold dict_literal in H. simpl in H. rewrite lookup_empty in H. discriminate.
  - rewrite dict_literal_snoc in H. apply elem_of_app.
    destruct (decide (k' = k)) as [->|Hne].
    + rewrite lookup_insert_eq in H. injection H as ->. right. left.
    + rewrite lookup_insert_ne in H by assumption. left. apply IH, H.
Qed.

Lemma reference_degradation_token_bit tok b :
  token_bit (Mapping (dict_literal reference_degradation_items)) tok = Some b ->
  is_option_bit b.
Proof.
  rewrite token_bit_mapping.
  destruct (dict_literal reference_degradation_items !! tok) as [i|] eqn:E; [|discriminate].
  apply dict_literal_lookup_inv in E. unfold reference_degradation_items in E.
  unfold is_option_bit.
  list_cases E; injection E as -> ->; simpl; intros [= <-]; auto.
Qed.

Lemma lor_below_16 a b :
  0 <= a < 16 -> 0 <= b < 16 -> 0 <= Z.lor a b < 16.
Proof.
  intros Ha Hb.
  assert (H0 : 0 <= Z.lor a b) by (apply Z.lor_nonneg; lia).
  split; [assumption|].
  destruct (Z.eq_dec (Z.lor a b) 0) as [E|Hne]; [rewrite E; lia|].
  assert (Hlog : ∀ x, 0 <= x < 16 -> Z.log2 x < 4).
  { intros x Hx. destruct (Z.eq_dec x 0) as [->|Hx0]; [reflexivity|].
    apply Z.log2_lt_pow2; [lia|]. change (2 ^ 4) with 16. lia. }
  change 16 with (2 ^ 4). apply Z.log2_lt_pow2; [lia|].
  rewrite Z.log2_lor by lia.
  pose proof (Hlog a Ha). pose proof (Hlog b Hb). lia.
Qed.

Lemma bit_union_option_bits bits :
  Forall is_option_bit bits ->
  0 <= bit_union bits <= 15 ∧ (bits ≠ [] -> 1 <= bit_union bits).
Proof.
  induction 1 as [|b bits Hb _ [IH _]]; [simpl; split; [lia | congruence]|].
  simpl. generalize dependent (bit_union bits). intros u IH.
  assert (Hb' : 0 < b < 16) by (unfold is_option_bit in Hb; lia).
  pose proof (lor_below_16 b u ltac:(lia) ltac:(lia)) as Hlor.
  split; [lia|]. intros _.
  assert (Z.lor b u ≠ 0); [|lia].
  rewrite Z.lor_eq_0_iff. lia.
Qed.

(** C10: a run of [remap_list] with the table of reference_degradation
    that returns, returns an integer from 1 to 15; it is never 0, the
    value reference_degradation gets for a missing cell. *)
Theorem reference_degradation_range values w n w' :
  remap_list values (Mapping (dict_literal reference_degradation_items)) w = (Ok n, w') ->
  1 <= n <= 15 ∧ n ≠ 0.
Proof.
  intros Hrun. apply remap_list_ok_inv in Hrun as (Hall & -> & _); [|exact I].
  set (rule := Mapping (dict_literal reference_degradation_items)) in *.
  assert (Hbits : Forall is_option_bit (omap (token_bit rule) (split_comma values))).
  { apply Forall_forall. intros b Hb. apply list_elem_of_omap in Hb as (tok & _ & Hb).
    apply (reference_degradation_token_bit tok b Hb). }
  assert (Hne : omap (token_bit rule) (split_comma values) ≠ []).
  { pose proof (split_comma_nonempty values) as Hs.
    destruct (split_comma values) as [|tok toks]; [congruence|].
    inversion Hall as [|? ? [b Hb] _]; subst. simpl. rewrite Hb. discriminate. }
  destruct (bit_union_option_bits _ Hbits) as [Hr Hpos]. specialize (Hpos Hne). lia.
Qed.

Lemma reference_degradation_range_witness :
  remap_list "Open Data,Preregistration"
    (Mapping (dict_literal reference_degradation_items)) empty_world
  = (Ok 10, empty_world)
  ∧ 1 <= 10 <= 15 ∧ 10 ≠ 0.
Proof.
  split; [reflexivity|].
  apply (reference_degradation_range "Open Data,Preregistration" empty_world 10 empty_world).
  reflexivity.
Defined.

(** ** Frames *)

Lemma labelled_set_cells_eq l cs cols : labelled l (set_cells l cs cols) = Some cs.
Proof.
  induction cols as [|[l0 old] cols IH]; simpl.
  - rewrite String.eqb_refl. reflexivity.
  - destruct (String.eqb l0 l) eqn:E; simpl; rewrite E; [reflexivity | exact IH].
Qed.

Lemma labelled_set_cells_ne l l' cs cols :
  l ≠ l' -> labelled l' (set_cells l cs cols) = labelled l' cols.
Proof.
  intros Hne. induction cols as [|[l0 old] cols IH]; simpl.
  - destruct (String.eqb_spec l l'); [congruence | reflexivity].
  - destruct (String.eqb_spec l0 l) as [->|Hl0]; simpl.
    + destruct (String.eqb_spec l l'); [congruence | reflexivity].
    + rewrite IH. reflexivity.
Qed.

Lemma set_cells_labels l cs cols :
  is_Some (labelled l cols) -> (set_cells l cs cols).*1 = cols.*1.
Proof.
  induction cols as [|[l0 old] cols IH]; simpl; [intros [c Hc]; discriminate|].
  destruct (String.eqb l0 l); simpl; [reflexivity|].
  intros Hc. f_equal. apply IH, Hc.
Qed.

(** ** Mapping a function over a column *)

Lemma pure_series_map f cells :
  (∀ v, pure_comp (f v)) -> pure_comp (series_map f cells).
Proof.
  intros Hf. apply pure_map_each. intros v _.
  apply pure_bind; [apply Hf | intros n; apply pure_ret].
Qed.

Lemma series_map_ok f cells w :
  Forall (resolves f) cells ->
  ∃ cs, series_map f cells w = (Ok cs, w) ∧ Forall (fun c => is_int c = true) cs.
Proof.
  induction 1 as [|v cells [n Hn] _ (cs & Hcs & Hint)].
  - exists []. split; [reflexivity | constructor].
  - exists (VInt n :: cs). split; [|constructor; [reflexivity | assumption]].
    unfold series_map in *. simpl.
    rewrite run_bind, run_bind, Hn. simpl. rewrite run_bind, Hcs. reflexivity.
Qed.

Lemma series_map_ok_inv f cells w cs w' :
  (∀ v, pure_comp (f v)) ->
  series_map f cells w = (Ok cs, w') ->
  Forall (resolves f) cells ∧ Forall (fun c => is_int c = true) cs.
Proof.
  intros Hf. revert cs w'.
  induction cells as [|v cells IH]; intros cs w' Hrun.
  - injection Hrun as <- <-. split; constructor.
  - unfold series_map in *. simpl in Hrun. rewrite run_bind, run_bind in Hrun.
    destruct (Hf v) as [r Hr]. rewrite Hr in Hrun.
    destruct r as [n|e]; [|discriminate]. simpl in Hrun. rewrite run_bind in Hrun.
    destruct (map_each _ cells w) as [[cs'|e] w1] eqn:E; [|discriminate].
    injection Hrun as <- <-. destruct (IH _ _ eq_refl) as [H1 H2].
    split; constructor; try assumption; [|reflexivity].
    exists n. exact Hr.
Qed.

(** ** Selecting columns *)

Lemma get_column_some l df w cells :
  labelled l (columns df) = Some cells -> get_column l df w = (Ok cells, w).
Proof. intros H. unfold get_column. rewrite H. reflexivity. Qed.

Lemma get_column_none l df w :
  labelled l (columns df) = None -> get_column l df w = (Raise (KeyError (VStr l)), w).
Proof. intros H. unfold get_column. rewrite H. reflexivity. Qed.

Lemma select_columns_ok labels df w :
  (∀ l, l ∈ labels -> is_Some (labelled l (columns df))) ->
  ∃ cols,
    map_each (fun l => cells ← get_column l df; ret (l, cells)) labels w = (Ok cols, w)
    ∧ cols.*1 = labels
    ∧ ∀ l, l ∈ labels -> labelled l cols = labelled l (columns df).
Proof.
  induction labels as [|l labels IH]; intros Hall.
  - exists []. split; [reflexivity|]. split; [reflexivity|].
    intros l Hl. apply elem_of_nil in Hl. destruct Hl.
  - destruct (Hall l) as [c Hc]; [left|].
    destruct IH as (cols & Hrun & Hlab & Hsame); [intros l' Hl'; apply Hall; right; exact Hl'|].
    exists ((l, c) :: cols). split; [|split].
    + simpl. rewrite run_bind, run_bind, (get_column_some _ _ _ _ Hc). simpl.
      rewrite run_bind, Hrun. reflexivity.
    + simpl. f_equal. exact Hlab.
    + intros l' Hl'. simpl. destruct (String.eqb_spec l l') as [<-|Hne]; [congruence|].
      apply Hsame. apply elem_of_cons in Hl' as [->|Hl']; [congruence | exact Hl'].
Qed.

Lemma select_columns_ok_inv labels df w cols w' :
  map_each (fun l => cells ← get_column l df; ret (l, cells)) labels w = (Ok cols, w') ->
  ∀ l, l ∈ labels -> is_Some (labelled l (columns df)).
Proof.
  revert cols w'. induction labels as [|l labels IH]; intros cols w' Hrun l' Hl'.
  - apply elem_of_nil in Hl'. destruct Hl'.
  - simpl in Hrun. rewrite run_bind, run_bind in Hrun.
    destruct (labelled l (columns df)) as [c|] eqn:Hc;
      [rewrite (get_column_some _ _ _ _ Hc) in Hrun
      |rewrite (get_column_none _ _ _ Hc) in Hrun; discriminate].
    simpl in Hrun. rewrite run_bind in Hrun.
    destruct (map_each _ labels w) as [[cols'|e] w1] eqn:E; [|discriminate].
    apply elem_of_cons in Hl' as [->|Hl']; [rewrite Hc; eauto|].
    apply (IH _ _ eq_refl l' Hl').
Qed.

Lemma select_ok labels df w :
  (∀ l, l ∈ labels -> is_Some (labelled l (columns df))) ->
  ∃ sel,
    select labels df w = (Ok sel, w)
    ∧ index_name sel = index_name df ∧ index sel = index df
    ∧ (columns sel).*1 = labels
    ∧ ∀ l, l ∈ labels -> labelled l (columns sel) = labelled l (columns df).
Proof.
  intros Hall. destruct (select_columns_ok labels df w Hall) as (cols & Hrun & Hlab & Hsame).
  exists (mkFrame (index_name df) (index df) cols).
  unfold select. rewrite run_bind, Hrun. auto.
Qed.

Lemma select_ok_inv labels df w sel w' :
  select labels df w = (Ok sel, w') ->
  ∀ l, l ∈ labels -> is_Some (labelled l (columns df)).
Proof.
  unfold select. rewrite run_bind.
  destruct (map_each _ labels w) as [[cols|e] w1] eqn:E; [|discriminate].
  intros _. apply (select_columns_ok_inv _ _ _ _ _ E).
Qed.

(** ** Remapping the columns *)

Lemma remap_column_ok df l f w cells :
  labelled l (columns df) = Some cells -> Forall (resolves f) cells ->
  ∃ cs, remap_column df (l, f) w = (Ok (set_column l cs df), w)
        ∧ Forall (fun c => is_int c = true) cs.
Proof.
  intros Hl Hall. destruct (series_map_ok f cells w Hall) as (cs & Hcs & Hint).
  exists cs. split; [|exact Hint].
  unfold remap_column. simpl. rewrite run_bind, (get_column_some _ _ _ _ Hl).
  rewrite run_bind, Hcs. reflexivity.
Qed.

Lemma remap_column_ok_inv df l f w out w' :
  (∀ v, pure_comp (f v)) ->
  remap_column df (l, f) w = (Ok out, w') ->
  w' = w ∧ ∃ cells cs,
    labelled l (columns df) = Some cells ∧ Forall (resolves f) cells
    ∧ Forall (fun c => is_int c = true) cs ∧ out = set_column l cs df.
Proof.
  intros Hf. unfold remap_column. simpl. rewrite run_bind.
  destruct (labelled l (columns df)) as [cells|] eqn:Hl;
    [rewrite (get_column_some _ _ _ _ Hl)
    |rewrite (get_column_none _ _ _ Hl); discriminate].
  rewrite run_bind.
  destruct (pure_series_map f cells Hf) as [r Hr]. rewrite Hr.
  destruct r as [cs|e]; [|discriminate]. intros [= <- <-].
  destruct (series_map_ok_inv f cells w cs w Hf (Hr w)) as [Hres Hint].
  split; [reflexivity|]. exists cells, cs. auto.
Qed.

Lemma remap_columns_ok rules :
  NoDup rules.*1 ->
  ∀ df w,
    (∀ l f, (l, f) ∈ rules ->
            ∃ cells, labelled l (columns df) = Some cells ∧ Forall (resolves f) cells) ->
    ∃ out, for_each remap_column rules df w = (Ok out, w).
Proof.
  induction rules as [|[l f] rules IH]; intros Hnd df w Hall.
  - exists df. reflexivity.
  - simpl in Hnd. apply NoDup_cons in Hnd as [Hfresh Hnd].
    destruct (Hall l f) as (cells & Hl & Hres); [left|].
    destruct (remap_column_ok df l f w cells Hl Hres) as (cs & Hrun & _).
    simpl. rewrite run_bind, Hrun. apply (IH Hnd).
    intros l' f' Hin. destruct (Hall l' f') as (cells' & Hl' & Hres'); [right; exact Hin|].
    exists cells'. split; [|exact Hres']. simpl.
    rewrite labelled_set_cells_ne; [exact Hl'|].
    intros ->. apply Hfresh. apply list_elem_of_fmap. exists (l', f'). auto.
Qed.

Lemma remap_columns_ok_inv rules :
  NoDup rules.*1 ->
  (∀ l f, (l, f) ∈ rules -> ∀ v, pure_comp (f v)) ->
  ∀ df w out w',
    for_each remap_column rules df w = (Ok out, w') ->
    w' = w
    ∧ index_name out = index_name df ∧ index out = index df
    ∧ (columns out).*1 = (columns df).*1
    ∧ (∀ l, l ∉ rules.*1 -> labelled l (columns out) = labelled l (columns df))
    ∧ (∀ l f, (l, f) ∈ rules ->
         ∃ cells cs,
           labelled l (columns df) = Some cells ∧ Forall (resolves f) cells
           ∧ labelled l (columns out) = Some cs
           ∧ Forall (fun c => is_int c = true) cs).
Proof.
  induction rules as [|[l f] rules IH]; intros Hnd Hpure df w out w' Hrun.
  - injection Hrun as <- <-. repeat split; try reflexivity.
    intros l f Hin. apply elem_of_nil in Hin. destruct Hin.
  - simpl in Hnd. apply NoDup_cons in Hnd as [Hfresh Hnd].
    simpl in Hrun. rewrite run_bind in Hrun.
    destruct (remap_column df (l, f) w) as [[df1|e] w1] eqn:E; [|discriminate].
    apply remap_column_ok_inv in E as (-> & cells & cs & Hl & Hres & Hint & ->);
      [|apply (Hpure l f); left].
    apply IH in Hrun as (-> & Hname & Hidx & Hlab & Hother & Hrules);
      [|exact Hnd | intros l' f' Hin; apply (Hpure l' f'); right; exact Hin].
    simpl in *. split; [reflexivity|]. split; [exact Hname|]. split; [exact Hidx|].
    split; [|split].
    + rewrite Hlab. apply set_cells_labels. eauto.
    + intros l' Hl'. apply not_elem_of_cons in Hl' as [Hne Hl'].
      rewrite (Hother l' Hl'). apply labelled_set_cells_ne. congruence.
    + intros l' f' Hin. apply elem_of_cons in Hin as [[= -> ->]|Hin].
      * exists cells, cs. rewrite (Hother l Hfresh), labelled_set_cells_eq. auto.
      * destruct (Hrules l' f' Hin) as (cells' & cs' & Hl' & Hres' & Hout & Hint').
        exists cells', cs'. repeat split; try assumption.
        rewrite labelled_set_cells_ne in Hl'; [exact Hl'|].
        intros ->. apply Hfresh. apply list_elem_of_fmap. exists (l', f'). auto.
Qed.

(** ** The transform of the frame *)

Lemma pure_get_column l df : pure_comp (get_column l df).
Proof. unfold get_column. destruct (labelled l (columns df)); [apply pure_ret | apply pure_raise]. Qed.

Lemma pure_compile_frame data : pure_comp (compile_frame data).
Proof.
  unfold compile_frame. apply pure_bind.
  - unfold select. apply pure_bind; [|intros cols; apply pure_ret].
    apply pure_map_each. intros l _.
    apply pure_bind; [apply pure_get_column | intros c; apply pure_ret].
  - intros sel. apply pure_for_each. intros df [l f] Hin.
    unfold remap_column. apply pure_bind; [apply pure_get_column|]. intros cells.
    apply pure_bind; [|intros cs; apply pure_ret].
    apply pure_series_map. intros v. apply (pure_column_remaps l f v Hin).
Qed.

Lemma column_remaps_NoDup : NoDup column_remaps.*1.
Proof. apply (bool_decide_unpack _). vm_compute. exact I. Qed.

Lemma column_remaps_selected l f : (l, f) ∈ column_remaps -> l ∈ selected_columns.
Proof.
  intros H. unfold column_remaps in H. unfold selected_columns.
  list_cases H; injection H as -> _;
    repeat first [apply list_elem_of_here | apply list_elem_of_further].
Qed.

Lemma conference_proceedings_not_remapped : "conference_proceedings" ∉ column_remaps.*1.
Proof. apply (bool_decide_unpack _). vm_compute. exact I. Qed.

Lemma compile_frame_ok data w :
  valid_input data -> ∃ out, compile_frame data w = (Ok out, w).
Proof.
  intros [Hcols Hcells].
  destruct (select_ok selected_columns (renamed_frame data) w Hcols)
    as (sel & Hsel & _ & _ & _ & Hsame).
  destruct (remap_columns_ok column_remaps column_remaps_NoDup sel w) as [out Hout].
  - intros l f Hin. pose proof (column_remaps_selected l f Hin) as Hl.
    destruct (Hcols l Hl) as [cells Hc]. exists cells.
    rewrite (Hsame l Hl). split; [exact Hc|]. apply (Hcells l f cells Hin Hc).
  - exists out. unfold compile_frame. fold (renamed_frame data).
    rewrite run_bind, Hsel. exact Hout.
Qed.

Lemma compile_frame_ok_inv data w out w' :
  compile_frame data w = (Ok out, w') ->
  w' = w ∧ valid_input data
  ∧ index_name out = Some "doi" ∧ index out = index data
  ∧ (columns out).*1 = selected_columns
  ∧ (∀ l f, (l, f) ∈ column_remaps ->
       ∃ cs, labelled l (columns out) = Some cs ∧ Forall (fun c => is_int c = true) cs)
  ∧ labelled "conference_proceedings" (columns out)
    = labelled "conference_proceedings" (columns (renamed_frame data)).
Proof.
  unfold compile_frame. fold (renamed_frame data). rewrite run_bind.
  destruct (select selected_columns (renamed_frame data) w) as [[sel|e] w1] eqn:Esel;
    [|discriminate].
  pose proof (select_ok_inv _ _ _ _ _ Esel) as Hcols.
  destruct (select_ok selected_columns (renamed_frame data) w Hcols)
    as (sel' & Hsel & Hname & Hidx & Hlab & Hsame).
  rewrite Hsel in Esel. injection Esel as -> ->. intros Hrun.
  apply (remap_columns_ok_inv column_remaps column_remaps_NoDup) in Hrun
    as (-> & Hname' & Hidx' & Hlab' & Hother & Hrules);
    [|intros l f Hin v; apply (pure_column_remaps l f v Hin)].
  split; [reflexivity|]. split; [|split; [|split; [|split; [|split]]]].
  - split; [exact Hcols|]. intros l f cells Hin Hc.
    destruct (Hrules l f Hin) as (cells' & cs & Hc' & Hres & _).
    rewrite (Hsame l (column_remaps_selected l f Hin)), Hc in Hc'.
    injection Hc' as <-. exact Hres.
  - rewrite Hname', Hname. reflexivity.
  - rewrite Hidx', Hidx. reflexivity.
  - rewrite Hlab', Hlab. reflexivity.
  - intros l f Hin. destruct (Hrules l f Hin) as (cells & cs & _ & _ & Hout & Hint). eauto.
  - rewrite (Hother _ conference_proceedings_not_remapped). apply Hsame.
    unfold selected_columns. apply list_elem_of_here.
Qed.

(** ** Files and the export *)

(** A download touches its own path only, and returns when the remote
    answers. *)
Lemma download_data_run requests_get path remote name loc w :
  ∃ r w',
    download_data requests_get path remote name loc w = (r, w')
    ∧ (∀ p, p ≠ path -> files w' !! p = files w !! p)
    ∧ (answers requests_get remote -> r = Ok tt).
Proof.
  unfold download_data. rewrite run_bind. unfold path_exists.
  destruct (bool_decide (is_Some (files w !! path))).
  - exists (Ok tt), w. split; [reflexivity|]. auto.
  - rewrite run_bind. unfold print. destruct (requests_get remote) as [[body|]|e] eqn:E.
    + eexists (Ok tt), _. split; [reflexivity|]. split; [|reflexivity].
      intros p Hp. simpl. apply lookup_insert_ne. congruence.
    + eexists _, _. split; [reflexivity|]. split; [reflexivity|].
      intros [x Hx]. congruence.
    + eexists _, _. split; [reflexivity|]. split; [reflexivity|].
      intros [x Hx]. congruence.
Qed.

Lemma download_docs_run requests_get w :
  ∃ r w',
    download_docs requests_get w = (r, w')
    ∧ files w' !! COMPILED_DATA_PATH = files w !! COMPILED_DATA_PATH
    ∧ ((∀ url, answers requests_get url) -> r = Ok tt).
Proof.
  unfold download_docs.
  set (p1 := OUTPUT_PATH +:+ "/CONTENT-LICENSE").
  set (p2 := OUTPUT_PATH +:+ "/dataset-description.pdf").
  set (p3 := OUTPUT_PATH +:+ "/explanations.pdf").
  assert (N1 : COMPILED_DATA_PATH ≠ p1) by (apply String.eqb_neq; reflexivity).
  assert (N2 : COMPILED_DATA_PATH ≠ p2) by (apply String.eqb_neq; reflexivity).
  assert (N3 : COMPILED_DATA_PATH ≠ p3) by (apply String.eqb_neq; reflexivity).
  clearbody p1 p2 p3.
  destruct (download_data_run requests_get p1 "https://osf.io/download/4xhm9/"
              (Some "CONTENT-LICENSE") (Some OSF_PROJECT) w) as (r1 & w1 & E1 & F1 & S1).
  rewrite run_bind, E1. destruct r1 as [[]|e1].
  2:{ exists (Raise e1), w1. split; [reflexivity|]. split; [apply F1, N1|].
      intros Hall. specialize (S1 (Hall _)). discriminate. }
  destruct (download_data_run requests_get p2 "https://osf.io/download/bgwp3/"
              (Some "dataset-description.pdf") (Some OSF_PROJECT) w1)
    as (r2 & w2 & E2 & F2 & S2).
  rewrite run_bind, E2. destruct r2 as [[]|e2].
  2:{ exists (Raise e2), w2. split; [reflexivity|].
      split; [rewrite (F2 _ N2); apply F1, N1|].
      intros Hall. specialize (S2 (Hall _)). discriminate. }
  destruct (download_data_run requests_get p3 "https://osf.io/download/xav7z/"
              (Some "explanations.pdf") (Some OSF_PROJECT) w2)
    as (r3 & w3 & E3 & F3 & S3).
  exists r3, w3. split; [exact E3|].
  split; [rewrite (F3 _ N3), (F2 _ N2); apply F1, N1|].
  intros Hall. apply S3, Hall.
Qed.

(** The step between the transform and [to_csv]. *)
Lemma fetch_docs_run requests_get (docs : bool) w :
  ∃ r w',
    (if docs then download_docs requests_get else ret tt) w = (r, w')
    ∧ files w' !! COMPILED_DATA_PATH = files w !! COMPILED_DATA_PATH
    ∧ (docs = false ∨ (∀ url, answers requests_get url) -> r = Ok tt).
Proof.
  destruct docs.
  - destruct (download_docs_run requests_get w) as (r & w' & E & F & S).
    exists r, w'. split; [exact E|]. split; [exact F|].
    intros [H|H]; [discriminate | apply S, H].
  - exists (Ok tt), w. auto.
Qed.

Lemma compile_and_export_raise requests_get docs data w e :
  compile_frame data w = (Raise e, w) ->
  compile_and_export requests_get docs data w = (Raise e, w).
Proof. intros H. unfold compile_and_export. apply run_bind_raise, H. Qed.

(** C8: the transform is fail-fast and writes all or nothing.  A cell
    of a remapped column on which the function of the column raises
    makes the whole run raise, and the run leaves the world as it found
    it: no file is written, nothing is printed.  And a run after which
    the compiled file has changed returned, from a table in which every
    cell of every remapped column resolves. *)
Theorem export_fail_fast requests_get docs data w :
  (∀ l f cells v e,
      (l, f) ∈ column_remaps ->
      labelled l (columns (renamed_frame data)) = Some cells ->
      v ∈ cells -> (f v w).1 = Raise e ->
      ∃ e', compile_and_export requests_get docs data w = (Raise e', w))
  ∧ (∀ r w',
      compile_and_export requests_get docs data w = (r, w') ->
      files w' !! COMPILED_DATA_PATH ≠ files w !! COMPILED_DATA_PATH ->
      r = Ok tt ∧ valid_input data).
Proof.
  destruct (pure_compile_frame data) as [r0 Hr0]. split.
  - intros l f cells v e Hin Hc Hv He.
    destruct r0 as [out|e']; [|exists e'; apply compile_and_export_raise, Hr0].
    destruct (compile_frame_ok_inv data w out w (Hr0 w)) as (_ & [_ Hvalid] & _).
    pose proof (Hvalid l f cells Hin Hc) as Hall. rewrite Forall_forall in Hall.
    destruct (Hall v Hv) as [n Hn]. rewrite Hn in He. discriminate.
  - intros r w' Hrun Hchanged.
    destruct r0 as [out|e'].
    2:{ rewrite (compile_and_export_raise _ _ _ _ _ (Hr0 w)) in Hrun.
        injection Hrun as <- <-. congruence. }
    destruct (compile_frame_ok_inv data w out w (Hr0 w)) as (_ & Hvalid & _).
    split; [|exact Hvalid].
    unfold compile_and_export in Hrun. rewrite run_bind, Hr0 in Hrun.
    destruct (fetch_docs_run requests_get docs w) as (r1 & w1 & E1 & F1 & _).
    rewrite run_bind, E1 in Hrun. destruct r1 as [[]|e1].
    + injection Hrun as <- <-. reflexivity.
    + injection Hrun as <- <-. congruence.
Qed.

Lemma export_fail_fast_witness :
  ("paper_type", remap_lookup paper_type_items) ∈ column_remaps
  ∧ labelled "paper_type" (columns (renamed_frame unknown_table)) = Some [VStr "Journal"]
  ∧ (remap_lookup paper_type_items (VStr "Journal") empty_world).1
    = Raise (KeyError (VStr "Journal"))
  ∧ ∃ e, compile_and_export (fun _ => Ok (Some "text")) true unknown_table empty_world
         = (Raise e, empty_world).
Proof.
  assert (Hin : ("paper_type", remap_lookup paper_type_items) ∈ column_remaps)
    by apply list_elem_of_here.
  split; [exact Hin|]. split; [reflexivity|]. split; [reflexivity|].
  destruct (export_fail_fast (fun _ => Ok (Some "text")) true unknown_table empty_world) as [H _].
  apply (H "paper_type" (remap_lookup paper_type_items) [VStr "Journal"] (VStr "Journal")
           (KeyError (VStr "Journal")) Hin); [reflexivity | apply list_elem_of_here | reflexivity].
Defined.

Lemma sample_table_valid : valid_input sample_table.
Proof.
  split.
  - intros l Hl. unfold selected_columns in Hl.
    list_cases Hl; subst l; vm_compute; eexists; reflexivity.
  - intros l f cells Hin Hc. unfold column_remaps in Hin.
    list_cases Hin; injection Hin as -> ->; vm_compute in Hc; injection Hc as <-;
      repeat constructor; eexists; intros w; reflexivity.
Qed.

Lemma sample_table_export :
  compile_and_export (fun _ => Ok None) false sample_table empty_world
  = (Ok tt, mkWorld (<[COMPILED_DATA_PATH := Csv sample_compiled]> ∅) []).
Proof. reflexivity. Qed.

Lemma sample_table_labelled : well_labelled sample_table.
Proof. split; apply (bool_decide_unpack _); vm_compute; exact I. Qed.

(** C7, as the code has it: for every input table whose labels are
    pairwise distinct and none of them a target name already, that has
    the thirteen columns and whose cells resolve, the run (without the
    supplemental documents, or with a remote that answers) writes the
    compiled file; its first line is "doi" followed by the thirteen
    target columns in the fixed order, the index is the one of the
    input, every cell of the twelve remapped columns is an integer, and
    conference_proceedings holds the cells of the input as they were. *)
Theorem export_schema requests_get docs data w :
  well_labelled data ->
  valid_input data ->
  docs = false ∨ (∀ url, answers requests_get url) ->
  ∃ out w',
    compile_and_export requests_get docs data w = (Ok tt, w')
    ∧ files w' !! COMPILED_DATA_PATH = Some (Csv out)
    ∧ csv_header out
      = ["doi"; "conference_proceedings"; "paper_type"; "acm_misclassified";
         "open_methodology"; "open_data"; "data_documentation"; "open_materials";
         "materials_documentation"; "readme"; "permissible_software_license";
         "preregistration"; "reproducible"; "reference_degradation"]
    ∧ index out = index data
    ∧ (∀ l f, (l, f) ∈ column_remaps ->
         ∃ cs, labelled l (columns out) = Some cs ∧ Forall (fun c => is_int c = true) cs)
    ∧ labelled "conference_proceedings" (columns out)
      = labelled "conference_proceedings" (columns (renamed_frame data)).
Proof.
  intros _ Hvalid Hdocs.
  destruct (compile_frame_ok data w Hvalid) as [out Hout].
  destruct (compile_frame_ok_inv data w out w Hout)
    as (_ & _ & Hname & Hidx & Hlab & Hints & Hconf).
  destruct (fetch_docs_run requests_get docs w) as (r1 & w1 & E1 & _ & S1).
  rewrite (S1 Hdocs) in E1.
  exists out, (mkWorld (<[COMPILED_DATA_PATH := Csv out]> (files w1)) (stdout w1)).
  split; [|split; [|split; [|auto]]].
  - unfold compile_and_export. rewrite run_bind, Hout, run_bind, E1. reflexivity.
  - simpl. apply lookup_insert_eq.
  - unfold csv_header. rewrite Hname, Hlab. reflexivity.
Qed.

Lemma export_schema_witness :
  well_labelled sample_table
  ∧ valid_input sample_table
  ∧ ∃ out w',
      compile_and_export (fun _ => Ok None) false sample_table empty_world = (Ok tt, w')
      ∧ files w' !! COMPILED_DATA_PATH = Some (Csv out)
      ∧ csv_header out
        = ["doi"; "conference_proceedings"; "paper_type"; "acm_misclassified";
           "open_methodology"; "open_data"; "data_documentation"; "open_materials";
           "materials_documentation"; "readme"; "permissible_software_license";
           "preregistration"; "reproducible"; "reference_degradation"]
      ∧ labelled "paper_type" (columns out) = Some [VInt 1]
      ∧ labelled "acm_misclassified" (columns out) = Some [VInt 1]
      ∧ labelled "reference_degradation" (columns out) = Some [VInt 0].
Proof.
  split; [exact sample_table_labelled|]. split; [exact sample_table_valid|].
  destruct (export_schema (fun _ => Ok None) false sample_table empty_world
              sample_table_labelled sample_table_valid (or_introl eq_refl))
    as (out & w' & Hrun & Hfile & Hhead & _).
  exists out, w'. split; [exact Hrun|]. split; [exact Hfile|]. split; [exact Hhead|].
  rewrite sample_table_export in Hrun. injection Hrun as <-.
  simpl in Hfile. rewrite lookup_insert_eq in Hfile. injection Hfile as <-.
  repeat split; reflexivity.
Defined.

(** C7, as the specification states it, fails at [sample_table]: the
    table is accepted and its compiled file has the fixed first line,
    but the column conference_proceedings is written as the text it
    held, not as an integer. *)
Lemma export_not_all_integers :
  well_labelled sample_table
  ∧ valid_input sample_table
  ∧ compile_and_export (fun _ => Ok None) false sample_table empty_world
    = (Ok tt, mkWorld (<[COMPILED_DATA_PATH := Csv sample_compiled]> ∅) [])
  ∧ csv_header sample_compiled = "doi" :: selected_columns
  ∧ labelled "conference_proceedings" (columns sample_compiled) = Some [VStr "EDM 2021"]
  ∧ ¬ Forall (fun col => Forall (fun c => is_int c = true) col.2) (columns sample_compiled).
Proof.
  split; [exact sample_table_labelled|].
  split; [exact sample_table_valid|]. split; [exact sample_table_export|].
  split; [reflexivity|]. split; [reflexivity|].
  intros Hints. unfold sample_compiled in Hints. simpl in Hints.
  inversion Hints as [|col cols Hcol _]; subst.
  inversion Hcol as [|c cs Hc _]; subst. discriminate.
Qed.

(** * Further properties of the code *)

(** ** What the column functions return *)

Lemma remap_lookup_ok_inv items value w n w' :
  remap_lookup items value w = (Ok n, w') ->
  w' = w
  ∧ ((is_float_nan value = true ∧ n = -1)
     ∨ (is_float_nan value = false ∧ ∃ k, value = VStr k ∧ (k, n) ∈ items)).
Proof.
  unfold remap_lookup, remap_to_int.
  destruct (is_float_nan value) eqn:Hnan.
  - intros [= <- <-]. split; [reflexivity|]. left. split; reflexivity.
  - destruct value as [k|f|z]; simpl; try discriminate.
    destruct (dict_literal items !! k) as [i|] eqn:E; [|discriminate].
    intros [= <- <-]. split; [reflexivity|]. right. split; [reflexivity|].
    exists k. split; [reflexivity|]. apply dict_literal_lookup_inv, E.
Qed.

(** X1: [remap_yes_no] has four outcomes and no other: 1 on "Yes",
    0 on "No", -1 on a missing value, and [KeyError] carrying the value
    on anything else (another string, a number); it never changes the
    world. *)
Theorem remap_yes_no_outcomes value w :
  ∃ r, remap_yes_no value w = (r, w)
       ∧ ((r = Ok 1 ∧ value = VStr "Yes")
          ∨ (r = Ok 0 ∧ value = VStr "No")
          ∨ (r = Ok (-1) ∧ is_float_nan value = true)
          ∨ (r = Raise (KeyError value) ∧ is_float_nan value = false
             ∧ value ≠ VStr "Yes" ∧ value ≠ VStr "No")).
Proof.
  destruct (is_float_nan value) eqn:Hnan.
  - exists (Ok (-1)). split; [|auto].
    unfold remap_yes_no, remap_to_int. rewrite Hnan. reflexivity.
  - destruct value as [k|f|z].
    + destruct (decide (k = "Yes")) as [->|HY]; [exists (Ok 1); auto|].
      destruct (decide (k = "No")) as [->|HN].
      { exists (Ok 0). split; [reflexivity|]. auto. }
      exists (Raise (KeyError (VStr k))).
      split; [|right; right; right; repeat split; congruence].
      unfold remap_yes_no, remap_to_int. simpl.
      destruct (dict_literal yes_no_items !! k) as [i|] eqn:E; [|reflexivity].
      apply dict_literal_lookup_inv in E. unfold yes_no_items in E.
      list_cases E; injection E as -> ->; congruence.
    + exists (Raise (KeyError (VFloat f))).
      split; [|right; right; right; repeat split; congruence].
      unfold remap_yes_no, remap_to_int. rewrite Hnan. reflexivity.
    + exists (Raise (KeyError (VInt z))).
      split; [reflexivity|right; right; right; repeat split; congruence].
Qed.

(** X2: the codes of the eleven lookup and yes/no columns.  When the
    function of such a column returns, the world is as before and the
    integer is -1 for a missing value and otherwise the one the dict
    literal of the column gives the string; so it lies between -1 and
    3, and it is -1 for a missing value only. *)
Theorem lookup_column_codes label items f value w n w' :
  (label, items) ∈ lookup_vocabularies ->
  labelled label column_remaps = Some f ->
  f value w = (Ok n, w') ->
  w' = w ∧ -1 <= n <= 3
  ∧ (n = -1 ↔ is_float_nan value = true)
  ∧ (is_float_nan value = false -> ∃ k, value = VStr k ∧ (k, n) ∈ items).
Proof.
  intros Hv Hf Hrun.
  assert (Hinv : w' = w
                 ∧ ((is_float_nan value = true ∧ n = -1)
                    ∨ (is_float_nan value = false
                       ∧ ∃ k, value = VStr k ∧ (k, n) ∈ items))
                 ∧ ∀ k i, (k, i) ∈ items -> 0 <= i <= 3).
  { unfold lookup_vocabularies in Hv.
    list_cases Hv; injection Hv as -> ->; cbn in Hf; injection Hf as <-;
      (split; [|split]);
      try (apply (remap_lookup_ok_inv _ _ _ _ _ Hrun));
      intros k i Hi;
      first [unfold paper_type_items in Hi | unfold yes_no_items in Hi
            | unfold open_methodology_items in Hi | unfold open_data_items in Hi
            | unfold data_documentation_items in Hi | unfold open_materials_items in Hi
            | unfold materials_documentation_items in Hi];
      list_cases Hi; injection Hi as _ ->; lia. }
  destruct Hinv as (-> & Hcase & Hrange). split; [reflexivity|].
  destruct Hcase as [[Hnan ->]|(Hnan & k & -> & Hk)].
  - split; [lia|]. split; [tauto | congruence].
  - pose proof (Hrange k n Hk). split; [lia|]. split; [|eauto].
    split; [lia | simpl; discriminate].
Qed.

Lemma lookup_column_codes_witness :
  ("open_methodology", open_methodology_items) ∈ lookup_vocabularies
  ∧ remap_lookup open_methodology_items (VStr "Public Access") empty_world
    = (Ok 3, empty_world)
  ∧ -1 <= 3 <= 3 ∧ (3 = -1 ↔ is_float_nan (VStr "Public Access") = true).
Proof.
  assert (Hv : ("open_methodology", open_methodology_items) ∈ lookup_vocabularies).
  { unfold lookup_vocabularies.
    repeat first [apply list_elem_of_here | apply list_elem_of_further]. }
  split; [exact Hv|]. split; [reflexivity|].
  destruct (lookup_column_codes "open_methodology" open_methodology_items
              (remap_lookup open_methodology_items) (VStr "Public Access")
              empty_world 3 empty_world Hv eq_refl eq_refl) as (_ & Hr & Hm & _).
  split; [exact Hr | exact Hm].
Defined.

(** X3: the codes of reference_degradation.  When the function of the
    column returns, the world is as before, the integer lies between 0
    and 15, it is 0 exactly when the value is missing, and a value that
    is not missing is a string: a number in that column raises. *)
Theorem reference_degradation_codes value w n w' :
  remap_reference_degradation value w = (Ok n, w') ->
  w' = w ∧ 0 <= n <= 15
  ∧ (n = 0 ↔ is_float_nan value = true)
  ∧ (is_float_nan value = false -> ∃ s, value = VStr s).
Proof.
  unfold remap_reference_degradation, remap_to_int.
  destruct (is_float_nan value) eqn:Hnan.
  - intros [= <- <-]. repeat split; try lia; try reflexivity; discriminate.
  - destruct value as [s|f|z]; simpl; try discriminate. intros Hrun.
    apply remap_list_ok_inv in Hrun as (Hall & -> & ->); [|exact I].
    set (rule := Mapping (dict_literal reference_degradation_items)) in *.
    assert (Hbits : Forall is_option_bit (omap (token_bit rule) (split_comma s))).
    { apply Forall_forall. intros b Hb. apply list_elem_of_omap in Hb as (tok & _ & Hb).
      apply (reference_degradation_token_bit tok b Hb). }
    assert (Hne : omap (token_bit rule) (split_comma s) ≠ []).
    { pose proof (split_comma_nonempty s) as Hs.
      destruct (split_comma s) as [|tok toks]; [congruence|].
      inversion Hall as [|? ? [b Hb] _]; subst. simpl. rewrite Hb. discriminate. }
    destruct (bit_union_option_bits _ Hbits) as [Hr Hpos]. specialize (Hpos Hne).
    split; [reflexivity|]. split; [lia|]. split; [|eauto].
    split; [lia | discriminate].
Qed.

Lemma reference_degradation_codes_witness :
  remap_reference_degradation (VStr "Open Materials") empty_world = (Ok 4, empty_world)
  ∧ 0 <= 4 <= 15 ∧ (4 = 0 ↔ is_float_nan (VStr "Open Materials") = true).
Proof.
  split; [reflexivity|].
  destruct (reference_degradation_codes (VStr "Open Materials") empty_world 4 empty_world
              eq_refl) as (_ & Hr & Hm & _).
  split; [exact Hr | exact Hm].
Defined.

(** ** More on the bit field of a list *)

Lemma for_each_app {A B} (body : A -> B -> M A) xs ys acc w :
  for_each body (xs ++ ys) acc w
  = match for_each body xs acc w with
    | (Ok a, w') => for_each body ys a w'
    | (Raise e, w') => (Raise e, w')
    end.
Proof.
  revert acc w. induction xs as [|x xs IH]; intros acc w; [reflexivity|].
  simpl. rewrite !run_bind. destruct (body acc x w) as [[a|e] w1]; [apply IH | reflexivity].
Qed.

Lemma bit_union_app bits bits' :
  bit_union (bits ++ bits') = Z.lor (bit_union bits) (bit_union bits').
Proof.
  induction bits as [|b bits IH]; simpl; [rewrite Z.lor_0_l; reflexivity|].
  fold (bit_union (bits ++ bits')). fold (bit_union bits).
  rewrite IH, Z.lor_assoc. reflexivity.
Qed.

Lemma token_bit_good m tok :
  (∃ i, m !! tok = Some i ∧ 0 <= i) -> is_Some (token_bit (Mapping m) tok).
Proof.
  intros (i & Hi & Hpos). rewrite token_bit_mapping, Hi.
  destruct (Z.ltb_spec i 0); [lia | eauto].
Qed.

(** X4: [remap_list] of two lists joined by a comma is the OR of the
    two results: it returns exactly when both parts return, and then
    the integer is the bitwise OR of theirs (for an index rule without
    effects). *)
Theorem remap_list_concat a b index_mapper w :
  pure_mapper index_mapper ->
  returned (remap_list (a +:+ "," +:+ b) index_mapper w)
  = match returned (remap_list a index_mapper w),
          returned (remap_list b index_mapper w) with
    | Some x, Some y => Some (Z.lor x y)
    | _, _ => None
    end.
Proof.
  intros Hm. unfold remap_list. rewrite split_comma_app, for_each_app.
  destruct (tokens_all_or_not index_mapper (split_comma a)) as [Ha|Ha].
  - rewrite (remap_list_loop_ok _ _ Hm Ha).
    destruct (tokens_all_or_not index_mapper (split_comma b)) as [Hb|Hb].
    + rewrite !(remap_list_loop_ok _ _ Hm Hb). unfold returned. simpl.
      rewrite !Z.lor_0_l. reflexivity.
    + destruct (remap_list_loop_raise _ _ Hm Hb
                  (Z.lor 0 (bit_union (omap (token_bit index_mapper) (split_comma a)))) w)
        as [e ->].
      destruct (remap_list_loop_raise _ _ Hm Hb 0 w) as [e' ->]. reflexivity.
  - destruct (remap_list_loop_raise _ _ Hm Ha 0 w) as [e ->]. reflexivity.
Qed.

Lemma remap_list_concat_witness :
  pure_mapper (Mapping (dict_literal reference_degradation_items))
  ∧ returned (remap_list "Open Data,Preregistration,Open Materials"
                (Mapping (dict_literal reference_degradation_items)) empty_world)
    = Some (Z.lor 10 4).
Proof.
  split; [exact I|].
  exact (remap_list_concat "Open Data,Preregistration" "Open Materials"
           (Mapping (dict_literal reference_degradation_items)) empty_world I).
Defined.

(** X5: the error of [remap_list] with a table names the first token
    the table does not have: when the tokens before it resolve to
    indices that are not negative, the run raises [KeyError] carrying
    that token, whatever follows it. *)
Theorem remap_list_first_unknown values m pre tok post w :
  split_comma values = (pre ++ tok :: post)%list ->
  Forall (fun t => ∃ i, m !! t = Some i ∧ 0 <= i) pre ->
  m !! tok = None ->
  remap_list values (Mapping m) w = (Raise (KeyError (VStr tok)), w).
Proof.
  intros Hsplit Hpre Htok. unfold remap_list. rewrite Hsplit, for_each_app.
  rewrite (remap_list_loop_ok (Mapping m) pre I).
  - simpl. apply run_bind_raise.
    rewrite (remap_list_step_run (Mapping m) tok (Raise (KeyError (VStr tok)))).
    + reflexivity.
    + intros w1. simpl. rewrite Htok. reflexivity.
  - eapply Forall_impl; [exact Hpre|]. intros t Ht. apply token_bit_good, Ht.
Qed.

Lemma remap_list_first_unknown_witness :
  split_comma "Open Data, Preregistration,Other"
  = (["Open Data"] ++ [" Preregistration"; "Other"])%list
  ∧ dict_literal reference_degradation_items !! " Preregistration" = None
  ∧ remap_list "Open Data, Preregistration,Other"
      (Mapping (dict_literal reference_degradation_items)) empty_world
    = (Raise (KeyError (VStr " Preregistration")), empty_world).
Proof.
  assert (Hn : dict_literal reference_degradation_items !! " Preregistration" = None)
    by (vm_compute; reflexivity).
  split; [reflexivity|]. split; [exact Hn|].
  apply (remap_list_first_unknown "Open Data, Preregistration,Other"
           (dict_literal reference_degradation_items)
           ["Open Data"] " Preregistration" ["Other"] empty_world);
    [reflexivity | | exact Hn].
  constructor; [|constructor]. exists 1. split; [vm_compute; reflexivity | lia].
Defined.

(** X6: an index below zero makes [remap_list] raise [ValueError] (the
    shift count of [1 << index] is negative), when the tokens before
    resolve to indices that are not negative. *)
Theorem remap_list_negative_index values m pre tok post i w :
  split_comma values = (pre ++ tok :: post)%list ->
  Forall (fun t => ∃ j, m !! t = Some j ∧ 0 <= j) pre ->
  m !! tok = Some i -> i < 0 ->
  remap_list values (Mapping m) w = (Raise ValueError, w).
Proof.
  intros Hsplit Hpre Htok Hneg. unfold remap_list. rewrite Hsplit, for_each_app.
  rewrite (remap_list_loop_ok (Mapping m) pre I).
  - simpl. apply run_bind_raise.
    rewrite (remap_list_step_run (Mapping m) tok (Ok i)).
    + destruct (Z.ltb_spec i 0); [reflexivity | lia].
    + intros w1. simpl. rewrite Htok. reflexivity.
  - eapply Forall_impl; [exact Hpre|]. intros t Ht. apply token_bit_good, Ht.
Qed.

Lemma remap_list_negative_index_witness :
  dict_literal [("a", 0); ("b", -1)] !! "b" = Some (-1)
  ∧ remap_list "a,b" (Mapping (dict_literal [("a", 0); ("b", -1)])) empty_world
    = (Raise ValueError, empty_world).
Proof.
  assert (Hb : dict_literal [("a", 0); ("b", -1)] !! "b" = Some (-1))
    by (vm_compute; reflexivity).
  split; [exact Hb|].
  apply (remap_list_negative_index "a,b" (dict_literal [("a", 0); ("b", -1)])
           ["a"] "b" [] (-1) empty_world); [reflexivity | | exact Hb | lia].
  constructor; [|constructor]. exists 0. split; [vm_compute; reflexivity | lia].
Defined.

Lemma lor_below_pow2 k a b :
  0 <= a < 2 ^ k -> 0 <= b < 2 ^ k -> 0 <= Z.lor a b < 2 ^ k.
Proof.
  intros Ha Hb.
  destruct (Z.eq_dec a 0) as [->|Ha0]; [rewrite Z.lor_0_l; exact Hb|].
  destruct (Z.eq_dec b 0) as [->|Hb0]; [rewrite Z.lor_0_r; exact Ha|].
  assert (H0 : 0 <= Z.lor a b) by (apply Z.lor_nonneg; lia).
  assert (Hne : Z.lor a b ≠ 0) by (rewrite Z.lor_eq_0_iff; lia).
  split; [assumption|]. apply Z.log2_lt_pow2; [lia|].
  rewrite Z.log2_lor by lia.
  assert (Z.log2 a < k) by (apply Z.log2_lt_pow2; lia).
  assert (Z.log2 b < k) by (apply Z.log2_lt_pow2; lia).
  lia.
Qed.

(** A run with a table that returns has found, for every token, an
    index that is not negative. *)
Lemma remap_list_tokens_resolve values m w n w' :
  remap_list values (Mapping m) w = (Ok n, w') ->
  ∀ tok, tok ∈ split_comma values -> ∃ i, m !! tok = Some i ∧ 0 <= i.
Proof.
  intros Hrun tok Htok. apply remap_list_ok_inv in Hrun as (Hall & _ & _); [|exact I].
  rewrite Forall_forall in Hall. destruct (Hall tok Htok) as [b Hb].
  rewrite token_bit_mapping in Hb.
  destruct (m !! tok) as [i|]; [|discriminate]. exists i. split; [reflexivity|].
  destruct (Z.ltb_spec i 0); [discriminate | lia].
Qed.

(** The bits of the result are the indices of the tokens. *)
Lemma remap_list_testbit values m w n w' :
  remap_list values (Mapping m) w = (Ok n, w') ->
  ∀ i, Z.testbit n i = true ↔ ∃ tok, tok ∈ split_comma values ∧ m !! tok = Some i.
Proof.
  intros Hrun i. pose proof (remap_list_tokens_resolve _ _ _ _ _ Hrun) as Hres.
  apply remap_list_ok_inv in Hrun as (_ & -> & _); [|exact I].
  rewrite testbit_bit_union. split.
  - intros (b & Hb & Hbit). apply list_elem_of_omap in Hb as (tok & Htok & Hb).
    exists tok. split; [assumption|]. destruct (Hres tok Htok) as (j & Hj & Hpos).
    rewrite token_bit_mapping, Hj in Hb.
    destruct (Z.ltb_spec j 0); [lia|]. injection Hb as <-.
    apply testbit_shiftl_one in Hbit; [congruence | assumption].
  - intros (tok & Htok & Hi). destruct (Hres tok Htok) as (j & Hj & Hpos).
    assert (j = i) by congruence. subst j.
    exists (Z.shiftl 1 i). split; [|apply testbit_shiftl_one; [assumption | reflexivity]].
    apply list_elem_of_omap. exists tok. split; [assumption|].
    rewrite token_bit_mapping, Hi. destruct (Z.ltb_spec i 0); [lia | reflexivity].
Qed.

Lemma bit_union_bound k bits :
  Forall (fun b => 0 < b < 2 ^ k) bits -> bits ≠ [] -> 0 < bit_union bits < 2 ^ k.
Proof.
  induction 1 as [|b bits Hb Hbits IH]; [congruence|]. intros _. simpl.
  fold (bit_union bits). destruct bits as [|b' bits].
  - simpl. rewrite Z.lor_0_r. exact Hb.
  - specialize (IH ltac:(discriminate)).
    pose proof (lor_below_pow2 k b (bit_union (b' :: bits)) ltac:(lia) ltac:(lia)) as Hlor.
    split; [|apply Hlor].
    assert (Z.lor b (bit_union (b' :: bits)) ≠ 0) by (rewrite Z.lor_eq_0_iff; lia).
    lia.
Qed.

(** X7: the size of the bit field.  With a table whose indices are all
    below [k], a run of [remap_list] that returns gives an integer
    above 0 and below [2 ^ k]. *)
Theorem remap_list_bound values m k w n w' :
  (∀ tok i, m !! tok = Some i -> i < k) ->
  remap_list values (Mapping m) w = (Ok n, w') ->
  0 < n < 2 ^ k.
Proof.
  intros Hk Hrun. pose proof (remap_list_tokens_resolve _ _ _ _ _ Hrun) as Hres.
  apply remap_list_ok_inv in Hrun as (Hall & -> & _); [|exact I].
  apply bit_union_bound.
  - apply Forall_forall. intros b Hb.
    apply list_elem_of_omap in Hb as (tok & Htok & Hb).
    destruct (Hres tok Htok) as (i & Hi & Hpos).
    rewrite token_bit_mapping, Hi in Hb.
    destruct (Z.ltb_spec i 0); [lia|]. injection Hb as <-.
    rewrite Z.shiftl_1_l. pose proof (Hk tok i Hi). split.
    + apply Z.pow_pos_nonneg; lia.
    + apply Z.pow_lt_mono_r; lia.
  - pose proof (split_comma_nonempty values) as Hne.
    destruct (split_comma values) as [|tok toks]; [congruence|].
    inversion Hall as [|? ? [b Hb] _]; subst. simpl. rewrite Hb. discriminate.
Qed.

Lemma remap_list_bound_witness :
  (∀ tok i, dict_literal reference_degradation_items !! tok = Some i -> i < 4)
  ∧ remap_list "Preregistration,Open Methodology"
      (Mapping (dict_literal reference_degradation_items)) empty_world
    = (Ok 9, empty_world)
  ∧ 0 < 9 < 2 ^ 4.
Proof.
  assert (Hk : ∀ tok i, dict_literal reference_degradation_items !! tok = Some i -> i < 4).
  { intros tok i Hi. apply dict_literal_lookup_inv in Hi.
    unfold reference_degradation_items in Hi.
    list_cases Hi; injection Hi as _ ->; lia. }
  split; [exact Hk|]. split; [reflexivity|].
  apply (remap_list_bound "Preregistration,Open Methodology"
           (dict_literal reference_degradation_items) 4 empty_world 9 empty_world Hk).
  reflexivity.
Defined.

(** X8: the bit field names its tokens.  With a table that gives
    different tokens different indices, two strings on which
    [remap_list] returns give the same integer exactly when they hold
    the same tokens (in any order, any number of times). *)
Theorem remap_list_injective a b m w x y :
  (∀ t t' i, m !! t = Some i -> m !! t' = Some i -> t = t') ->
  remap_list a (Mapping m) w = (Ok x, w) ->
  remap_list b (Mapping m) w = (Ok y, w) ->
  x = y ↔ ∀ tok, tok ∈ split_comma a ↔ tok ∈ split_comma b.
Proof.
  intros Hinj Ha Hb. split.
  - intros <-.
    assert (Hhalf : ∀ c d, remap_list c (Mapping m) w = (Ok x, w) ->
                           remap_list d (Mapping m) w = (Ok x, w) ->
                           ∀ tok, tok ∈ split_comma c -> tok ∈ split_comma d).
    { intros c d Hc Hd tok Htok.
      destruct (remap_list_tokens_resolve _ _ _ _ _ Hc tok Htok) as (i & Hi & _).
      assert (Hbit : Z.testbit x i = true)
        by (apply (remap_list_testbit _ _ _ _ _ Hc); eauto).
      apply (remap_list_testbit _ _ _ _ _ Hd) in Hbit as (tok' & Htok' & Hi').
      rewrite (Hinj tok tok' i Hi Hi'). exact Htok'. }
    intros tok. split; [apply (Hhalf a b) | apply (Hhalf b a)]; assumption.
  - intros Hset.
    pose proof (remap_list_loop_set (Mapping m) _ _ w w I Hset) as Hret.
    unfold remap_list in Ha, Hb. rewrite Ha, Hb in Hret.
    injection Hret as ->. reflexivity.
Qed.

Lemma remap_list_injective_witness :
  (∀ t t' i, dict_literal reference_degradation_items !! t = Some i ->
             dict_literal reference_degradation_items !! t' = Some i -> t = t')
  ∧ (5 = 5 ↔ ∀ tok, tok ∈ split_comma "Open Materials,Open Methodology"
                    ↔ tok ∈ split_comma "Open Methodology,Open Materials,Open Methodology").
Proof.
  assert (Hinj : ∀ t t' i, dict_literal reference_degradation_items !! t = Some i ->
                           dict_literal reference_degradation_items !! t' = Some i -> t = t').
  { intros t t' i Ht Ht'. apply dict_literal_lookup_inv in Ht, Ht'.
    unfold reference_degradation_items in Ht, Ht'.
    list_cases Ht; injection Ht as -> ->; list_cases Ht'; inversion Ht'; reflexivity. }
  split; [exact Hinj|].
  apply (remap_list_injective "Open Materials,Open Methodology"
           "Open Methodology,Open Materials,Open Methodology"
           (dict_literal reference_degradation_items) empty_world 5 5 Hinj);
    reflexivity.
Defined.

(** ** More on the transform of the frame *)

Lemma series_map_rel f cells w cs w' :
  (∀ v, pure_comp (f v)) ->
  series_map f cells w = (Ok cs, w') ->
  Forall2 (fun v c => ∃ n, c = VInt n ∧ f v w = (Ok n, w)) cells cs.
Proof.
  intros Hf. revert cs w'.
  induction cells as [|v cells IH]; intros cs w' Hrun.
  - injection Hrun as <- <-. constructor.
  - unfold series_map in *. simpl in Hrun. rewrite run_bind, run_bind in Hrun.
    destruct (Hf v) as [r Hr]. rewrite Hr in Hrun.
    destruct r as [n|e]; [|discriminate]. simpl in Hrun. rewrite run_bind in Hrun.
    destruct (map_each _ cells w) as [[cs'|e] w1] eqn:E; [|discriminate].
    injection Hrun as <- <-. constructor; [eauto | apply (IH _ _ eq_refl)].
Qed.

Lemma remap_column_run_inv df l f w out w' :
  (∀ v, pure_comp (f v)) ->
  remap_column df (l, f) w = (Ok out, w') ->
  ∃ cells cs,
    labelled l (columns df) = Some cells
    ∧ series_map f cells w = (Ok cs, w)
    ∧ out = set_column l cs df ∧ w' = w.
Proof.
  intros Hf. unfold remap_column. simpl. rewrite run_bind.
  destruct (labelled l (columns df)) as [cells|] eqn:Hl;
    [rewrite (get_column_some _ _ _ _ Hl)
    |rewrite (get_column_none _ _ _ Hl); discriminate].
  rewrite run_bind.
  destruct (pure_series_map f cells Hf) as [r Hr]. rewrite Hr.
  destruct r as [cs|e]; [|discriminate]. intros [= <- <-].
  exists cells, cs. rewrite Hr. auto.
Qed.

Lemma remap_columns_rel rules :
  NoDup rules.*1 ->
  (∀ l f, (l, f) ∈ rules -> ∀ v, pure_comp (f v)) ->
  ∀ df w out w',
    for_each remap_column rules df w = (Ok out, w') ->
    ∀ l f, (l, f) ∈ rules ->
      ∃ cells cs,
        labelled l (columns df) = Some cells
        ∧ series_map f cells w = (Ok cs, w)
        ∧ labelled l (columns out) = Some cs.
Proof.
  induction rules as [|[l0 f0] rules IH]; intros Hnd Hpure df w out w' Hrun l f Hin.
  - apply elem_of_nil in Hin. destruct Hin.
  - simpl in Hnd. apply NoDup_cons in Hnd as [Hfresh Hnd].
    assert (Hpure' : ∀ l f, (l, f) ∈ rules -> ∀ v, pure_comp (f v))
      by (intros l1 f1 H1; apply (Hpure l1 f1); right; exact H1).
    simpl in Hrun. rewrite run_bind in Hrun.
    destruct (remap_column df (l0, f0) w) as [[df1|e] w1] eqn:E; [|discriminate].
    apply remap_column_run_inv in E as (cells & cs & Hl & Hcs & -> & ->);
      [|apply (Hpure l0 f0); left].
    apply elem_of_cons in Hin as [[= -> ->]|Hin].
    + exists cells, cs. split; [exact Hl|]. split; [exact Hcs|].
      apply (remap_columns_ok_inv rules Hnd Hpure') in Hrun
        as (_ & _ & _ & _ & Hother & _).
      rewrite (Hother l0 Hfresh). simpl. apply labelled_set_cells_eq.
    + destruct (IH Hnd Hpure' _ _ _ _ Hrun l f Hin) as (cells' & cs' & Hl' & Hcs' & Hout).
      exists cells', cs'. split; [|split; assumption].
      simpl in Hl'. rewrite labelled_set_cells_ne in Hl'; [exact Hl'|].
      intros ->. apply Hfresh. apply list_elem_of_fmap. exists (l, f). auto.
Qed.

(** X9: the transform works cell by cell.  When it returns, a remapped
    column of the output has one cell for each cell of the column of the
    input, in the same order, and each is the integer the function of
    the column returns on the cell of the input. *)
Theorem compile_frame_cells data w out w' l f cells :
  compile_frame data w = (Ok out, w') ->
  (l, f) ∈ column_remaps ->
  labelled l (columns (renamed_frame data)) = Some cells ->
  ∃ cs, labelled l (columns out) = Some cs
        ∧ Forall2 (fun v c => ∃ n, c = VInt n ∧ f v w = (Ok n, w)) cells cs.
Proof.
  intros Hrun Hin Hcells.
  assert (Hpure : ∀ l f, (l, f) ∈ column_remaps -> ∀ v, pure_comp (f v))
    by (intros l1 f1 H1 v; apply (pure_column_remaps l1 f1 v H1)).
  unfold compile_frame in Hrun. fold (renamed_frame data) in Hrun.
  rewrite run_bind in Hrun.
  destruct (select selected_columns (renamed_frame data) w) as [[sel|e] w1] eqn:Esel;
    [|discriminate].
  pose proof (select_ok_inv _ _ _ _ _ Esel) as Hcols.
  destruct (select_ok selected_columns (renamed_frame data) w Hcols)
    as (sel' & Hsel & _ & _ & _ & Hsame).
  rewrite Hsel in Esel. injection Esel as <- <-.
  destruct (remap_columns_rel column_remaps column_remaps_NoDup Hpure _ _ _ _ Hrun l f Hin)
    as (cells' & cs & Hl & Hcs & Hout).
  rewrite (Hsame l (column_remaps_selected l f Hin)), Hcells in Hl. injection Hl as <-.
  exists cs. split; [exact Hout|].
  apply (series_map_rel f cells w cs w (Hpure l f Hin) Hcs).
Qed.

Lemma compile_frame_cells_witness :
  ("open_materials", remap_lookup open_materials_items) ∈ column_remaps
  ∧ labelled "open_materials" (columns (renamed_frame sample_table)) = Some [VStr "Partial"]
  ∧ ∃ cs, labelled "open_materials" (columns sample_compiled) = Some cs
          ∧ Forall2 (fun v c => ∃ n, c = VInt n
                       ∧ remap_lookup open_materials_items v empty_world
                         = (Ok n, empty_world)) [VStr "Partial"] cs.
Proof.
  assert (Hin : ("open_materials", remap_lookup open_materials_items) ∈ column_remaps).
  { unfold column_remaps. repeat first [apply list_elem_of_here | apply list_elem_of_further]. }
  split; [exact Hin|]. split; [reflexivity|].
  apply (compile_frame_cells sample_table empty_world sample_compiled empty_world
           "open_materials" (remap_lookup open_materials_items) [VStr "Partial"]);
    [reflexivity | exact Hin | reflexivity].
Defined.

Lemma select_columns_absent df labels l w :
  l ∈ labels ->
  labelled l (columns df) = None ->
  ∃ l', map_each (fun l => cells ← get_column l df; ret (l, cells)) labels w
        = (Raise (KeyError (VStr l')), w).
Proof.
  intros Hin Hl. induction labels as [|l0 labels IH]; [apply elem_of_nil in Hin; destruct Hin|].
  simpl. rewrite run_bind, run_bind.
  destruct (labelled l0 (columns df)) as [c|] eqn:Hc.
  - rewrite (get_column_some _ _ _ _ Hc). simpl. rewrite run_bind.
    apply elem_of_cons in Hin as [->|Hin]; [congruence|].
    destruct (IH Hin) as [l' ->]. exists l'. reflexivity.
  - rewrite (get_column_none _ _ _ Hc). exists l0. reflexivity.
Qed.

(** X10: a table that lacks one of the thirteen columns is refused:
    the transform raises [KeyError] and leaves the world as it is,
    whatever the cells of the other columns hold. *)
Theorem compile_frame_missing_column data w l :
  l ∈ selected_columns ->
  labelled l (columns (renamed_frame data)) = None ->
  ∃ key, compile_frame data w = (Raise (KeyError key), w).
Proof.
  intros Hin Hl.
  destruct (select_columns_absent (renamed_frame data) selected_columns l w Hin Hl)
    as [l' Hrun].
  exists (VStr l'). unfold compile_frame. fold (renamed_frame data).
  apply run_bind_raise. unfold select. apply run_bind_raise. exact Hrun.
Qed.

Lemma compile_frame_missing_column_witness :
  "readme" ∈ selected_columns
  ∧ ∃ key,
      compile_frame (mkFrame (Some "Paper DOI Link") [VStr "10.1000/1"]
                       [("Type", [VStr "Journal"]);
                        ("Conference Proceedings", [VStr "EDM"])])
        empty_world
      = (Raise (KeyError key), empty_world).
Proof.
  assert (Hin : "readme" ∈ selected_columns).
  { unfold selected_columns.
    repeat first [apply list_elem_of_here | apply list_elem_of_further]. }
  split; [exact Hin|].
  apply (compile_frame_missing_column _ empty_world "readme" Hin). reflexivity.
Defined.

Lemma map_each_ext {A B} (f g : A -> M B) xs :
  (∀ x, x ∈ xs -> f x = g x) -> map_each f xs = map_each g xs.
Proof.
  induction xs as [|x xs IH]; intros H; [reflexivity|]. simpl.
  rewrite (H x) by left. rewrite IH; [reflexivity|].
  intros y Hy. apply H. right. exact Hy.
Qed.

(** X11: the output depends on the index and on the thirteen columns
    only.  Two tables with pairwise distinct labels, none a target name
    already, that have the same index and whose thirteen columns hold
    the same cells give the same run of the transform, whatever other
    columns they have and in whatever order their columns stand. *)
Theorem compile_frame_selected_only data data' w :
  well_labelled data -> well_labelled data' ->
  index data = index data' ->
  (∀ l, l ∈ selected_columns ->
        labelled l (columns (renamed_frame data))
        = labelled l (columns (renamed_frame data'))) ->
  compile_frame data w = compile_frame data' w.
Proof.
  intros _ _ Hidx Hcols. unfold compile_frame.
  fold (renamed_frame data). fold (renamed_frame data').
  assert (Hsel : select selected_columns (renamed_frame data)
                 = select selected_columns (renamed_frame data')).
  { unfold select.
    rewrite (map_each_ext
               (fun l => cells ← get_column l (renamed_frame data); ret (l, cells))
               (fun l => cells ← get_column l (renamed_frame data'); ret (l, cells))).
    - change (index (renamed_frame data)) with (index data).
      change (index (renamed_frame data')) with (index data').
      change (index_name (renamed_frame data)) with (Some "doi").
      change (index_name (renamed_frame data')) with (Some "doi").
      rewrite Hidx. reflexivity.
    - intros l Hl. unfold get_column. rewrite (Hcols l Hl). reflexivity. }
  rewrite Hsel. reflexivity.
Qed.

Lemma compile_frame_selected_only_witness :
  compile_frame sample_table empty_world
  = compile_frame
      (mkFrame None [VStr "10.1000/1"]
         [("Reference Degradation", [missing]);
          ("Reproducible", [VStr "Yes"]);
          ("Preregistration", [VStr "No"]);
          ("License", [missing]);
          ("README", [VStr "No"]);
          ("Materials Documentation", [VStr "Full"]);
          ("Open Materials", [VStr "Partial"]);
          ("Data Documentation", [missing]);
          ("Open Data", [VStr "No"]);
          ("Open Methodology", [VStr "Open Access"]);
          ("Misclassified", [VStr "Yes"]);
          ("Type", [VStr "Research Article"]);
          ("Conference Proceedings", [VStr "EDM 2021"])])
      empty_world.
Proof.
  apply compile_frame_selected_only.
  - exact sample_table_labelled.
  - split; apply (bool_decide_unpack _); vm_compute; exact I.
  - reflexivity.
  - intros l Hl. unfold selected_columns in Hl. list_cases Hl; subst l; reflexivity.
Defined.

Lemma pairs_one_to_one {A B} (l : list (A * B)) a b a' b' :
  NoDup l.*1 -> NoDup l.*2 -> (a, b) ∈ l -> (a', b') ∈ l -> a = a' ↔ b = b'.
Proof.
  induction l as [|[a0 b0] l IH]; intros Hk Hv Hin Hin'.
  - apply elem_of_nil in Hin. destruct Hin.
  - simpl in Hk, Hv. apply NoDup_cons in Hk as [Hk0 Hk]. apply NoDup_cons in Hv as [Hv0 Hv].
    assert (Hfst : ∀ x y, (x, y) ∈ l -> x ∈ l.*1)
      by (intros x y H; apply list_elem_of_fmap; exists (x, y); auto).
    assert (Hsnd : ∀ x y, (x, y) ∈ l -> y ∈ l.*2)
      by (intros x y H; apply list_elem_of_fmap; exists (x, y); auto).
    apply elem_of_cons in Hin as [[= -> ->]|Hin];
      apply elem_of_cons in Hin' as [[= -> ->]|Hin'].
    + tauto.
    + split; intros ->; exfalso; [apply Hk0 | apply Hv0]; eauto.
    + split; intros ->; exfalso; [apply Hk0 | apply Hv0]; eauto.
    + apply IH; assumption.
Qed.

Lemma renamed_columns_keys : NoDup renamed_columns.*1.
Proof. apply (bool_decide_unpack _). vm_compute. exact I. Qed.

Lemma renamed_columns_targets : NoDup renamed_columns.*2.
Proof. apply (bool_decide_unpack _). vm_compute. exact I. Qed.

(** X12: renaming keeps the cells.  In a table none of whose labels is
    already one of the thirteen target names, the column the renamed
    frame has under a target name is the column the input has under the
    source name (absent when the input has none). *)
Theorem renamed_frame_column data src tgt :
  (src, tgt) ∈ renamed_columns ->
  Forall (fun l => l ∉ renamed_columns.*2) (columns data).*1 ->
  labelled tgt (columns (renamed_frame data)) = labelled src (columns data).
Proof.
  intros Hin Hfresh.
  change (columns (renamed_frame data))
    with ((fun col : string * list pyval =>
             (default col.1 (dict_literal renamed_columns !! col.1), col.2))
            <$> columns data).
  induction (columns data) as [|[l0 c] cols IH]; [reflexivity|].
  rewrite fmap_cons in Hfresh. apply Forall_cons in Hfresh as [Hl0 Hfresh].
  change ((l0, c).1) with l0 in Hl0.
  change (labelled tgt
            ((default l0 (dict_literal renamed_columns !! l0), c)
             :: ((fun col : string * list pyval =>
                    (default col.1 (dict_literal renamed_columns !! col.1), col.2))
                   <$> cols))
          = labelled src ((l0, c) :: cols)).
  simpl. rewrite (IH Hfresh).
  assert (Hiff : default l0 (dict_literal renamed_columns !! l0) = tgt ↔ l0 = src).
  { destruct (dict_literal renamed_columns !! l0) as [t0|] eqn:E; simpl.
    - apply dict_literal_lookup_inv in E.
      pose proof (pairs_one_to_one renamed_columns l0 t0 src tgt
                    renamed_columns_keys renamed_columns_targets E Hin). tauto.
    - split.
      + intros ->. exfalso. apply Hl0. apply list_elem_of_fmap. exists (src, tgt). auto.
      + intros ->. rewrite (dict_literal_lookup _ _ _ renamed_columns_keys Hin) in E.
        discriminate. }
  destruct (String.eqb_spec (default l0 (dict_literal renamed_columns !! l0)) tgt) as [H1|H1];
    destruct (String.eqb_spec l0 src) as [H2|H2]; try reflexivity; tauto.
Qed.

Lemma renamed_frame_column_witness :
  ("Type", "paper_type") ∈ renamed_columns
  ∧ Forall (fun l => l ∉ renamed_columns.*2) (columns sample_table).*1
  ∧ labelled "paper_type" (columns (renamed_frame sample_table))
    = Some [VStr "Research Article"].
Proof.
  assert (Hin : ("Type", "paper_type") ∈ renamed_columns).
  { unfold renamed_columns. repeat first [apply list_elem_of_here | apply list_elem_of_further]. }
  assert (Hfresh : Forall (fun l => l ∉ renamed_columns.*2) (columns sample_table).*1).
  { apply (bool_decide_unpack _). vm_compute. exact I. }
  split; [exact Hin|]. split; [exact Hfresh|].
  rewrite (renamed_frame_column sample_table "Type" "paper_type" Hin Hfresh). reflexivity.
Defined.

(** Renaming a well labelled table gives no two columns the same label:
    these are the frames [select] and [get_column] are modelled for. *)
Lemma renamed_frame_labels data :
  well_labelled data -> NoDup (columns (renamed_frame data)).*1.
Proof.
  intros [Hnd Hfresh].
  change (columns (renamed_frame data))
    with ((fun col : string * list pyval =>
             (default col.1 (dict_literal renamed_columns !! col.1), col.2))
            <$> columns data).
  assert (Heq : ((fun col : string * list pyval =>
                    (default col.1 (dict_literal renamed_columns !! col.1), col.2))
                   <$> columns data).*1
                = (fun l => default l (dict_literal renamed_columns !! l))
                    <$> (columns data).*1).
  { rewrite <- !list_fmap_compose. reflexivity. }
  rewrite Heq. apply NoDup_fmap_2_strong; [|exact Hnd].
  intros l1 l2 H1 H2 Heq'. rewrite Forall_forall in Hfresh.
  pose proof (Hfresh l1 H1) as F1. pose proof (Hfresh l2 H2) as F2.
  assert (Htgt : ∀ l t, (l, t) ∈ renamed_columns -> t ∈ renamed_columns.*2)
    by (intros l t H; apply list_elem_of_fmap; exists (l, t); auto).
  destruct (dict_literal renamed_columns !! l1) as [t1|] eqn:E1;
    destruct (dict_literal renamed_columns !! l2) as [t2|] eqn:E2; simpl in Heq'.
  - apply dict_literal_lookup_inv in E1, E2. subst t2.
    apply (pairs_one_to_one renamed_columns l1 t1 l2 t1
             renamed_columns_keys renamed_columns_targets E1 E2). reflexivity.
  - apply dict_literal_lookup_inv in E1. subst l2. exfalso. apply F2, (Htgt l1 t1 E1).
  - apply dict_literal_lookup_inv in E2. subst l1. exfalso. apply F1, (Htgt l2 t2 E2).
  - exact Heq'.
Qed.

(** ** Downloads *)

Lemma download_data_present requests_get path remote name loc w :
  is_Some (files w !! path) ->
  download_data requests_get path remote name loc w = (Ok tt, w).
Proof.
  intros H. unfold download_data. rewrite run_bind. unfold path_exists.
  rewrite bool_decide_eq_true_2 by exact H. reflexivity.
Qed.

(** X13: [download_data] fetches a file once.  After a call that
    returned, the file is there, and any further call for the same path
    (whatever the remote and whether it answers) returns at once: no
    request, nothing printed, no file changed. *)
Theorem download_data_once requests_get path remote name loc w w1 :
  download_data requests_get path remote name loc w = (Ok tt, w1) ->
  is_Some (files w1 !! path)
  ∧ ∀ requests_get' remote' name' loc',
      download_data requests_get' path remote' name' loc' w1 = (Ok tt, w1).
Proof.
  intros Hrun.
  assert (Hthere : is_Some (files w1 !! path)).
  { unfold download_data in Hrun. rewrite run_bind in Hrun. unfold path_exists in Hrun.
    destruct (bool_decide (is_Some (files w !! path))) eqn:E.
    - injection Hrun as <-. apply (bool_decide_eq_true_1 _ E).
    - rewrite run_bind in Hrun. unfold print in Hrun.
      destruct (requests_get remote) as [[body|]|e]; try discriminate.
      injection Hrun as <-. simpl. rewrite lookup_insert_eq. eauto. }
  split; [exact Hthere|]. intros rg' remote' name' loc'.
  apply download_data_present, Hthere.
Qed.

Lemma download_data_once_witness :
  download_data (fun _ => Ok (Some "text")) "CONTENT-LICENSE" "https://osf.io/download/4xhm9/"
    None None empty_world
  = (Ok tt, mkWorld (<["CONTENT-LICENSE" := Bytes "text"]> ∅)
              ["Downloading CONTENT-LICENSE from 'https://osf.io/download/4xhm9/'."])
  ∧ download_data (fun _ => Raise (RequestException "ConnectionError")) "CONTENT-LICENSE"
      "https://osf.io/download/4xhm9/" None None
      (mkWorld (<["CONTENT-LICENSE" := Bytes "text"]> ∅)
         ["Downloading CONTENT-LICENSE from 'https://osf.io/download/4xhm9/'."])
    = (Ok tt, mkWorld (<["CONTENT-LICENSE" := Bytes "text"]> ∅)
                ["Downloading CONTENT-LICENSE from 'https://osf.io/download/4xhm9/'."]).
Proof.
  assert (H : download_data (fun _ => Ok (Some "text")) "CONTENT-LICENSE"
                "https://osf.io/download/4xhm9/" None None empty_world
              = (Ok tt, mkWorld (<["CONTENT-LICENSE" := Bytes "text"]> ∅)
                          ["Downloading CONTENT-LICENSE from 'https://osf.io/download/4xhm9/'."]))
    by reflexivity.
  split; [exact H|].
  apply (download_data_once _ _ _ _ _ _ _ H).
Defined.

(** X14: what [download_data] never does.  It changes no file but the
    one at its path, it never replaces a file that is there (the world
    stays as it is), and a call that does not return leaves every file
    as it was.  For a file that is not there, a response that is not ok
    ends in [TypeError] (line 140 cannot build its [HTTPError]), and an
    exception of [requests.get] goes through as it is. *)
Theorem download_data_frame requests_get path remote name loc w r w' :
  download_data requests_get path remote name loc w = (r, w') ->
  (∀ p, p ≠ path -> files w' !! p = files w !! p)
  ∧ (is_Some (files w !! path) -> r = Ok tt ∧ w' = w)
  ∧ (r ≠ Ok tt -> files w' = files w)
  ∧ (files w !! path = None -> requests_get remote = Ok None -> r = Raise TypeError)
  ∧ (files w !! path = None -> ∀ e, requests_get remote = Raise e -> r = Raise e).
Proof.
  unfold download_data. rewrite run_bind. unfold path_exists.
  destruct (bool_decide (is_Some (files w !! path))) eqn:E.
  - pose proof (bool_decide_eq_true_1 _ E) as [c Hc].
    intros [= <- <-]. split; [reflexivity|]. split; [auto|].
    split; [congruence|]. split; intros Hnone; congruence.
  - pose proof (bool_decide_eq_false_1 _ E) as Habs. rewrite run_bind. unfold print.
    destruct (requests_get remote) as [[body|]|e].
    + intros [= <- <-]. split; [|split; [tauto|split; [congruence|split]]].
      * intros p Hp. simpl. apply lookup_insert_ne. congruence.
      * discriminate.
      * discriminate.
    + intros [= <- <-]. split; [reflexivity|]. split; [tauto|].
      split; [reflexivity|]. split; [reflexivity | discriminate].
    + intros [= <- <-]. split; [reflexivity|]. split; [tauto|].
      split; [reflexivity|]. split; [discriminate|]. intros _ e' [= ->]. reflexivity.
Qed.

Lemma download_data_frame_witness :
  download_data (fun _ => Ok None) "CONTENT-LICENSE" "https://osf.io/download/4xhm9/"
    None None empty_world
  = (Raise TypeError,
     mkWorld ∅ ["Downloading CONTENT-LICENSE from 'https://osf.io/download/4xhm9/'."])
  ∧ files (mkWorld ∅ ["Downloading CONTENT-LICENSE from 'https://osf.io/download/4xhm9/'."])
    = files empty_world.
Proof.
  assert (H : download_data (fun _ => Ok None) "CONTENT-LICENSE"
                "https://osf.io/download/4xhm9/" None None empty_world
              = (Raise TypeError,
                 mkWorld ∅
                   ["Downloading CONTENT-LICENSE from 'https://osf.io/download/4xhm9/'."]))
    by reflexivity.
  split; [exact H|].
  destruct (download_data_frame _ _ _ _ _ _ _ _ H) as (_ & _ & Hfail & _).
  apply Hfail. discriminate.
Defined.

(** X15: the supplemental documents come before the compiled file.
    When the licence file is absent and its remote does not answer
    with a response that is ok, a run with the documents raises and
    writes no file, the compiled one included, although the table is
    well labelled and every cell of it resolved; the exception is
    [TypeError] when the response is not ok. *)
Theorem export_docs_failure requests_get data w :
  well_labelled data ->
  valid_input data ->
  files w !! (OUTPUT_PATH +:+ "/CONTENT-LICENSE") = None ->
  ¬ answers requests_get "https://osf.io/download/4xhm9/" ->
  ∃ e w',
    compile_and_export requests_get true data w = (Raise e, w')
    ∧ files w' = files w
    ∧ (requests_get "https://osf.io/download/4xhm9/" = Ok None -> e = TypeError).
Proof.
  intros _ Hvalid Hfile Hremote.
  destruct (compile_frame_ok data w Hvalid) as [out Hout].
  assert (Hdl : ∃ e,
    download_data requests_get (OUTPUT_PATH +:+ "/CONTENT-LICENSE")
      "https://osf.io/download/4xhm9/" (Some "CONTENT-LICENSE") (Some OSF_PROJECT) w
    = (Raise e,
       mkWorld (files w)
         (stdout w ++ ["Downloading CONTENT-LICENSE from '" +:+ OSF_PROJECT +:+ "'."]))
    ∧ (requests_get "https://osf.io/download/4xhm9/" = Ok None -> e = TypeError)).
  { unfold download_data. rewrite run_bind. unfold path_exists.
    rewrite bool_decide_eq_false_2 by (rewrite Hfile; intros [x Hx]; discriminate).
    rewrite run_bind. unfold print.
    destruct (requests_get "https://osf.io/download/4xhm9/") as [[body|]|e] eqn:E.
    - exfalso. apply Hremote. exists body. exact E.
    - exists TypeError. split; reflexivity.
    - exists e. split; [reflexivity | discriminate]. }
  destruct Hdl as (e & Hdl & He).
  exists e, (mkWorld (files w)
               (stdout w ++ ["Downloading CONTENT-LICENSE from '" +:+ OSF_PROJECT +:+ "'."])).
  split; [|split; [reflexivity | exact He]].
  unfold compile_and_export. rewrite run_bind, Hout.
  apply run_bind_raise. unfold download_docs. apply run_bind_raise. exact Hdl.
Qed.

Lemma export_docs_failure_witness :
  well_labelled sample_table
  ∧ valid_input sample_table
  ∧ ∃ w',
      compile_and_export (fun _ => Ok None) true sample_table empty_world
      = (Raise TypeError, w')
      ∧ files w' = files empty_world.
Proof.
  split; [exact sample_table_labelled|]. split; [exact sample_table_valid|].
  destruct (export_docs_failure (fun _ => Ok None) sample_table empty_world
              sample_table_labelled sample_table_valid)
    as (e & w' & Hrun & Hfiles & He).
  - reflexivity.
  - intros [body Hbody]. discriminate.
  - exists w'. rewrite (He eq_refl) in Hrun. split; [exact Hrun | exact Hfiles].
Defined.

(** ** The main block *)

Lemma scan_opts_help opts :
  Exists (fun o => o ∈ ["-h"; "--help"]) opts ->
  ∀ raw_dataset docs w,
    scan_opts opts raw_dataset docs w
    = (Ok (inl 0), mkWorld (files w) (stdout w ++ [usage])).
Proof.
  induction opts as [|opt opts IH]; intros Hex raw_dataset docs w; [inversion Hex|].
  simpl. destruct (bool_decide (opt ∈ ["-h"; "--help"])) eqn:Eh; [reflexivity|].
  assert (Hex' : Exists (fun o => o ∈ ["-h"; "--help"]) opts).
  { inversion Hex as [? ? Hhead|]; subst; [|assumption].
    rewrite bool_decide_eq_true_2 in Eh by exact Hhead. discriminate. }
  destruct (bool_decide (opt ∈ ["-r"; "--raw-dataset"]));
    [|destruct (bool_decide (opt ∈ ["-n"; "--no-docs"]))]; apply (IH Hex').
Qed.

Lemma scan_opts_no_help opts :
  Forall (fun o => o ∉ ["-h"; "--help"]) opts ->
  ∀ raw_dataset docs w,
    scan_opts opts raw_dataset docs w
    = (Ok (inr (raw_dataset
                || existsb (fun o => bool_decide (o ∈ ["-r"; "--raw-dataset"])) opts,
                docs
                && negb (existsb (fun o => bool_decide (o ∈ ["-n"; "--no-docs"])) opts))),
       w).
Proof.
  induction 1 as [|opt opts Hopt _ IH]; intros raw_dataset docs w.
  - simpl. rewrite orb_false_r, andb_true_r. reflexivity.
  - simpl. rewrite bool_decide_eq_false_2 by exact Hopt.
    destruct (bool_decide (opt ∈ ["-r"; "--raw-dataset"])) eqn:Er.
    + assert (En : bool_decide (opt ∈ ["-n"; "--no-docs"]) = false).
      { apply bool_decide_eq_false_2. intros Hn.
        pose proof (bool_decide_eq_true_1 _ Er) as Hr.
        list_cases Hr; subst opt; list_cases Hn; discriminate. }
      rewrite IH, En. simpl. rewrite orb_true_r. reflexivity.
    + destruct (bool_decide (opt ∈ ["-n"; "--no-docs"])) eqn:En; rewrite IH; simpl.
      * rewrite !andb_false_r. reflexivity.
      * reflexivity.
Qed.

(** X16: what the command line can do to the two flags.  Without a
    help option the loop over the options exits nowhere and prints
    nothing; raw_dataset ends up set when it was set or one option is
    -r or --raw-dataset, and docs ends up set when it was set and no
    option is -n or --no-docs: an option can only switch the raw
    dataset on and the documents off, and the order of the options
    makes no difference. *)
Theorem command_line_flags opts raw_dataset docs w :
  Forall (fun o => o ∉ ["-h"; "--help"]) opts ->
  ∃ raw_dataset' docs',
    scan_opts opts raw_dataset docs w = (Ok (inr (raw_dataset', docs')), w)
    ∧ (raw_dataset' = true
       ↔ raw_dataset = true ∨ Exists (fun o => o ∈ ["-r"; "--raw-dataset"]) opts)
    ∧ (docs' = true
       ↔ docs = true ∧ Forall (fun o => o ∉ ["-n"; "--no-docs"]) opts).
Proof.
  intros Hno. eexists _, _. split; [apply (scan_opts_no_help opts Hno)|]. split.
  - rewrite orb_true_iff, existsb_exists, Exists_exists.
    split; (intros [H|(o & Ho & Hin)]; [left; exact H | right; exists o]).
    + split; [apply list_elem_of_In, Ho | apply (bool_decide_eq_true_1 _ Hin)].
    + split; [apply list_elem_of_In, Ho | apply bool_decide_eq_true_2, Hin].
  - rewrite andb_true_iff, negb_true_iff, Forall_forall.
    split; intros [Hd Hn]; (split; [exact Hd|]).
    + intros o Ho Hin.
      assert (Hex : existsb (fun o => bool_decide (o ∈ ["-n"; "--no-docs"])) opts = true).
      { apply existsb_exists. exists o.
        split; [apply list_elem_of_In, Ho | apply bool_decide_eq_true_2, Hin]. }
      congruence.
    + destruct (existsb _ opts) eqn:E; [|reflexivity].
      apply existsb_exists in E as (o & Ho & Hin). exfalso.
      apply (Hn o); [apply list_elem_of_In, Ho | apply (bool_decide_eq_true_1 _ Hin)].
Qed.

Lemma command_line_flags_witness :
  Forall (fun o => o ∉ ["-h"; "--help"]) ["--no-docs"; "-r"]
  ∧ scan_opts ["--no-docs"; "-r"] false true empty_world
    = (Ok (inr (true, false)), empty_world).
Proof.
  assert (Hno : Forall (fun o => o ∉ ["-h"; "--help"]) ["--no-docs"; "-r"]).
  { apply (bool_decide_unpack _). vm_compute. exact I. }
  split; [exact Hno|].
  destruct (command_line_flags ["--no-docs"; "-r"] false true empty_world Hno)
    as (r' & d' & Hrun & Hr & Hd).
  rewrite Hrun.
  assert (r' = true) as ->.
  { apply Hr. right. apply Exists_cons_tl, Exists_cons_hd, list_elem_of_here. }
  destruct d'; [|reflexivity].
  destruct Hd as [Hd _]. destruct (Hd eq_refl) as [_ Hall].
  inversion Hall as [|? ? Hhead _]. exfalso. apply Hhead.
  apply list_elem_of_further, list_elem_of_here.
Defined.

(** X17: the two ways out of the command line.  A command line that
    does not parse ends the program with status 2, and one with a help
    option (wherever it stands, whatever else is given) with status 0;
    both print the usage line once and touch no file. *)
Theorem main_usage requests_get read_csv raw_dataset_var docs_var w :
  main requests_get read_csv raw_dataset_var docs_var None w
  = (Ok 2, mkWorld (files w) (stdout w ++ [usage]))
  ∧ ∀ opts,
      Exists (fun o => o ∈ ["-h"; "--help"]) opts ->
      main requests_get read_csv raw_dataset_var docs_var (Some opts) w
      = (Ok 0, mkWorld (files w) (stdout w ++ [usage])).
Proof.
  split; [reflexivity|]. intros opts Hhelp. unfold main.
  rewrite run_bind, (scan_opts_help opts Hhelp). reflexivity.
Qed.

Lemma main_usage_witness :
  Exists (fun o => o ∈ ["-h"; "--help"]) ["-r"; "--help"; "-n"]
  ∧ main (fun _ => Ok None) (fun _ => Raise ValueError) None None
      (Some ["-r"; "--help"; "-n"]) empty_world
    = (Ok 0, mkWorld ∅ [usage]).
Proof.
  assert (Hhelp : Exists (fun o => o ∈ ["-h"; "--help"]) ["-r"; "--help"; "-n"]).
  { apply Exists_cons_tl, Exists_cons_hd, list_elem_of_further, list_elem_of_here. }
  split; [exact Hhelp|].
  destruct (main_usage (fun _ => Ok None) (fun _ => Raise ValueError) None None empty_world)
    as [_ H].
  apply (H _ Hhelp).
Defined.

(** X18: a compiled file that is there ends the program.  Without a
    help option, and whatever the flags, the remote and the raw file
    are, the program prints one line and exits with status 0: nothing
    is downloaded, read or written. *)
Theorem main_skips_compiled requests_get read_csv raw_dataset_var docs_var opts w :
  Forall (fun o => o ∉ ["-h"; "--help"]) opts ->
  is_Some (files w !! COMPILED_DATA_PATH) ->
  main requests_get read_csv raw_dataset_var docs_var (Some opts) w
  = (Ok 0,
     mkWorld (files w)
       (stdout w
        ++ ["Compiled file './data/compiled-survey-data.csv' already exists, exiting early."])).
Proof.
  intros Hno Hthere. unfold main.
  rewrite run_bind, (scan_opts_no_help opts Hno). cbv beta iota.
  rewrite run_bind. unfold path_exists.
  rewrite bool_decide_eq_true_2 by exact Hthere. reflexivity.
Qed.

Lemma main_skips_compiled_witness :
  Forall (fun o => o ∉ ["-h"; "--help"]) ["-r"]
  ∧ main (fun _ => Ok None) (fun _ => Raise ValueError) None None (Some ["-r"])
      (mkWorld (<[COMPILED_DATA_PATH := Csv sample_compiled]> ∅) [])
    = (Ok 0,
       mkWorld (<[COMPILED_DATA_PATH := Csv sample_compiled]> ∅)
         ["Compiled file './data/compiled-survey-data.csv' already exists, exiting early."]).
Proof.
  assert (Hno : Forall (fun o => o ∉ ["-h"; "--help"]) ["-r"]).
  { apply (bool_decide_unpack _). vm_compute. exact I. }
  split; [exact Hno|].
  rewrite (main_skips_compiled (fun _ => Ok None) (fun _ => Raise ValueError) None None ["-r"]
             (mkWorld (<[COMPILED_DATA_PATH := Csv sample_compiled]> ∅) []) Hno).
  - reflexivity.
  - simpl. rewrite lookup_insert_eq. eauto.
Defined.

Lemma raw_data_path_not_compiled raw_dataset :
  COMPILED_DATA_PATH ≠ raw_data_path raw_dataset.
Proof. destruct raw_dataset; apply String.eqb_neq; reflexivity. Qed.

(** X19: a run from a raw file that is there.  Without a help option
    and without a compiled file, when the raw file stands at the path
    the flags choose, pandas reads from it a table that is well
    labelled and valid, and the documents are switched off or their
    remotes answer, the program downloads no raw data, writes the
    compiled file holding the transform of the table, and ends at the
    last line, [sys.exit(1)]. *)
Theorem main_compiles requests_get read_csv raw_dataset_var docs_var opts w c data :
  Forall (fun o => o ∉ ["-h"; "--help"]) opts ->
  files w !! COMPILED_DATA_PATH = None ->
  files w !! raw_data_path (raw_dataset_flag raw_dataset_var opts) = Some c ->
  read_csv (Some c) = Ok data ->
  well_labelled data ->
  valid_input data ->
  docs_flag docs_var opts = false ∨ (∀ url, answers requests_get url) ->
  ∃ out w',
    main requests_get read_csv raw_dataset_var docs_var (Some opts) w = (Ok 1, w')
    ∧ compile_frame data w = (Ok out, w)
    ∧ files w' !! COMPILED_DATA_PATH = Some (Csv out).
Proof.
  intros Hno Hcompiled Hraw Hread _ Hvalid Hdocs.
  destruct (compile_frame_ok data w Hvalid) as [out Hout].
  destruct (fetch_docs_run requests_get (docs_flag docs_var opts) w)
    as (r1 & w1 & E1 & _ & S1).
  rewrite (S1 Hdocs) in E1.
  exists out, (mkWorld (<[COMPILED_DATA_PATH := Csv out]> (files w1)) (stdout w1)).
  split; [|split; [exact Hout | simpl; apply lookup_insert_eq]].
  unfold main. rewrite run_bind, (scan_opts_no_help opts Hno). cbv beta iota.
  fold (raw_dataset_flag raw_dataset_var opts). fold (docs_flag docs_var opts).
  rewrite run_bind. unfold path_exists.
  rewrite bool_decide_eq_false_2 by (rewrite Hcompiled; intros [x Hx]; discriminate).
  cbv beta iota zeta. fold (raw_data_path (raw_dataset_flag raw_dataset_var opts)).
  rewrite run_bind, download_data_present by (rewrite Hraw; eauto).
  rewrite run_bind, Hraw, Hread. cbv beta iota.
  rewrite run_bind. unfold compile_and_export.
  rewrite run_bind, Hout, run_bind, E1. reflexivity.
Qed.

Lemma main_compiles_witness :
  ∃ w',
    main (fun _ => Ok None) (fun _ => Ok sample_table) None None (Some ["-n"])
      (mkWorld (<[RAW_DATA_NAME := Bytes "raw"]> ∅) [])
    = (Ok 1, w')
    ∧ files w' !! COMPILED_DATA_PATH = Some (Csv sample_compiled).
Proof.
  assert (Hno : Forall (fun o => o ∉ ["-h"; "--help"]) ["-n"]).
  { apply (bool_decide_unpack _). vm_compute. exact I. }
  destruct (main_compiles (fun _ => Ok None) (fun _ => Ok sample_table) None None ["-n"]
              (mkWorld (<[RAW_DATA_NAME := Bytes "raw"]> ∅) []) (Bytes "raw") sample_table
              Hno)
    as (out & w' & Hrun & Hout & Hfile).
  - simpl. rewrite lookup_insert_ne by (apply String.eqb_neq; reflexivity).
    apply lookup_empty.
  - simpl. apply lookup_insert_eq.
  - reflexivity.
  - exact sample_table_labelled.
  - exact sample_table_valid.
  - left. reflexivity.
  - exists w'. split; [exact Hrun|].
    assert (Hc : compile_frame sample_table (mkWorld (<[RAW_DATA_NAME := Bytes "raw"]> ∅) [])
                 = (Ok sample_compiled, mkWorld (<[RAW_DATA_NAME := Bytes "raw"]> ∅) []))
      by reflexivity.
    rewrite Hc in Hout. injection Hout as <-. exact Hfile.
Defined.

(** The export either returns with the compiled file written, or raises
    with the compiled file as it was. *)
Lemma compile_and_export_run requests_get docs data w :
  ∃ r w',
    compile_and_export requests_get docs data w = (r, w')
    ∧ ((r = Ok tt ∧ is_Some (files w' !! COMPILED_DATA_PATH))
       ∨ ((∃ e, r = Raise e)
          ∧ files w' !! COMPILED_DATA_PATH = files w !! COMPILED_DATA_PATH)).
Proof.
  destruct (pure_compile_frame data) as [r0 Hr0]. unfold compile_and_export.
  rewrite run_bind, Hr0. destruct r0 as [out|e].
  - destruct (fetch_docs_run requests_get docs w) as (r1 & w1 & E1 & F1 & _).
    rewrite run_bind, E1. destruct r1 as [[]|e1].
    + eexists _, _. split; [reflexivity|]. left. split; [reflexivity|].
      simpl. rewrite lookup_insert_eq. eauto.
    + eexists _, _. split; [reflexivity|]. right. eauto.
  - eexists _, _. split; [reflexivity|]. right. eauto.
Qed.

(** X20: the compiled file and the end of the program.  Started without
    a compiled file, the program ends with the compiled file on disk
    exactly when it reaches its last line, [sys.exit(1)]; every other
    end (the usage exits, an exception nobody catches: a failed
    download, a file pandas refuses, a missing column, a value outside a
    vocabulary) leaves no compiled file.  Such an exception ends the
    process with status 1 as well, so a status other than 1 tells that
    no compiled file was written, and status 1 alone tells nothing. *)
Theorem main_compiled_iff_last_line
  requests_get read_csv raw_dataset_var docs_var getopt w r w' :
  files w !! COMPILED_DATA_PATH = None ->
  main requests_get read_csv raw_dataset_var docs_var getopt w = (r, w') ->
  (is_Some (files w' !! COMPILED_DATA_PATH) ↔ r = Ok 1)
  ∧ (exit_status r ≠ 1 -> files w' !! COMPILED_DATA_PATH = None).
Proof.
  intros Hnone Hrun.
  assert (Hiff : is_Some (files w' !! COMPILED_DATA_PATH) ↔ r = Ok 1);
    [|split; [exact Hiff|];
      intros Hstatus; destruct (files w' !! COMPILED_DATA_PATH) as [c|] eqn:Hc;
      [|reflexivity];
      assert (r = Ok 1) as -> by (apply Hiff; eauto); simpl in Hstatus; congruence].
  assert (Hno : ∀ w1 r1, files w1 !! COMPILED_DATA_PATH = None -> r1 ≠ Ok 1 ->
                         is_Some (files w1 !! COMPILED_DATA_PATH) ↔ r1 = Ok 1).
  { intros w1 r1 Hw1 Hr1. rewrite Hw1. split; [intros [x Hx]; discriminate | tauto]. }
  destruct getopt as [opts|]; [|injection Hrun as <- <-; apply Hno; [exact Hnone | discriminate]].
  unfold main in Hrun. rewrite run_bind in Hrun.
  destruct (decide (Exists (fun o => o ∈ ["-h"; "--help"]) opts)) as [Hhelp|Hhelp].
  { rewrite (scan_opts_help opts Hhelp) in Hrun. injection Hrun as <- <-.
    apply Hno; [exact Hnone | discriminate]. }
  apply not_Exists_Forall in Hhelp; [|intros o; apply _].
  rewrite (scan_opts_no_help opts Hhelp) in Hrun. cbv beta iota in Hrun.
  fold (raw_dataset_flag raw_dataset_var opts) in Hrun.
  fold (docs_flag docs_var opts) in Hrun.
  rewrite run_bind in Hrun. unfold path_exists in Hrun.
  rewrite bool_decide_eq_false_2 in Hrun
    by (rewrite Hnone; intros [x Hx]; discriminate).
  cbv beta iota zeta in Hrun.
  fold (raw_data_path (raw_dataset_flag raw_dataset_var opts)) in Hrun.
  set (path := raw_data_path (raw_dataset_flag raw_dataset_var opts)) in *.
  destruct (download_data_run requests_get path "https://osf.io/download/q2bxh/"
              (Some RAW_DATA_NAME) (Some OSF_PROJECT) w) as (r1 & w1 & E1 & F1 & _).
  assert (Hw1 : files w1 !! COMPILED_DATA_PATH = None).
  { rewrite (F1 _ (raw_data_path_not_compiled _)). exact Hnone. }
  rewrite run_bind, E1 in Hrun. destruct r1 as [[]|e1];
    [|injection Hrun as <- <-; apply Hno; [exact Hw1 | discriminate]].
  rewrite run_bind in Hrun. destruct (read_csv (files w1 !! path)) as [data|e2];
    [|injection Hrun as <- <-; apply Hno; [exact Hw1 | discriminate]].
  cbv beta iota in Hrun. rewrite run_bind in Hrun.
  destruct (compile_and_export_run requests_get (docs_flag docs_var opts) data w1)
    as (r3 & w3 & E3 & [[-> Hthere]|[[e3 ->] Hsame]]); rewrite E3 in Hrun.
  - injection Hrun as <- <-. tauto.
  - injection Hrun as <- <-. apply Hno; [rewrite Hsame; exact Hw1 | discriminate].
Qed.

Lemma main_compiled_iff_last_line_witness :
  main (fun _ => Ok None) (fun _ => Ok unknown_table) (Some "YES") None (Some [])
    (mkWorld (<[OUTPUT_PATH +:+ "/" +:+ RAW_DATA_NAME := Bytes "raw"]> ∅) [])
  = (Raise (KeyError (VStr "Journal")),
     mkWorld (<[OUTPUT_PATH +:+ "/" +:+ RAW_DATA_NAME := Bytes "raw"]> ∅) [])
  ∧ exit_status (Raise (KeyError (VStr "Journal"))) = 1
  ∧ (is_Some ((<[OUTPUT_PATH +:+ "/" +:+ RAW_DATA_NAME := Bytes "raw"]> ∅
               : gmap string content) !! COMPILED_DATA_PATH)
     ↔ Raise (KeyError (VStr "Journal")) = Ok 1).
Proof.
  assert (Hrun : main (fun _ => Ok None) (fun _ => Ok unknown_table) (Some "YES") None (Some [])
                   (mkWorld (<[OUTPUT_PATH +:+ "/" +:+ RAW_DATA_NAME := Bytes "raw"]> ∅) [])
                 = (Raise (KeyError (VStr "Journal")),
                    mkWorld (<[OUTPUT_PATH +:+ "/" +:+ RAW_DATA_NAME := Bytes "raw"]> ∅) []))
    by reflexivity.
  split; [exact Hrun|]. split; [reflexivity|].
  refine (proj1 (main_compiled_iff_last_line _ _ _ _ _ _ _ _ _ Hrun)).
  simpl. rewrite lookup_insert_ne by (apply String.eqb_neq; reflexivity).
  apply lookup_empty.
Defined.
